(** * Smart Backup Assistant: the backup validation pipeline

    A shallow embedding of the validation and risk-assessment pipeline of
    [rootfs/app]: [backup_analyzer.py] (manifest extraction, integration
    inference, version comparison), [breaking_changes.py] (the breaking-change
    store, range queries, risk scoring) and [backup_manager.py]
    ([validate_backup], which composes them).

    Conventions of the embedding:
    - Python [str] is [string]; the characters are ASCII.  [int()] also
      accepts non-ASCII decimal digits and white space, which are outside
      the embedding, as is the interpreter's limit on the number of digits.
    - Python [int] is [Z].
    - A [dict] read with [.get(key, default)] is a record of [option]
      fields, [None] standing for an absent key.  The JSON documents (the
      manifest, the breaking-change records, the response of the
      supervisor) follow their schema: a field that is present holds a
      value of the expected type.
    - An exception is a value of [exn] carrying [str(e)]; code that may
      raise returns [result].  The exceptions are those [except Exception]
      catches; [KeyboardInterrupt] and [SystemExit] are not modelled.
    - Logging is not modelled. *)

From Stdlib Require Import ZArith List String Ascii Bool Lia.
From Stdlib Require Import DecimalString.
Import ListNotations.
Open Scope string_scope.
Open Scope Z_scope.

(** ** Python primitives used by the application *)

Module Py.

Inductive exn : Type :=
| Exception (msg : string).

Definition str_exn (e : exn) : string :=
  match e with Exception msg => msg end.

Inductive result (A : Type) : Type :=
| Return (a : A)
| Raise (e : exn).
Arguments Return {A} a.
Arguments Raise {A} e.

Definition bind {A B : Type} (m : result A) (k : A -> result B) : result B :=
  match m with
  | Return a => k a
  | Raise e => Raise e
  end.

(** [try: body  except Exception as e: handler(e)] *)
Definition try_except {A : Type} (body : result A) (handler : exn -> A) : A :=
  match body with
  | Return a => a
  | Raise e => handler e
  end.

Definition chars (s : string) : list ascii := list_ascii_of_string s.
Definition of_chars (l : list ascii) : string := string_of_list_ascii l.

(** [s.lstrip(c)]: every leading occurrence of [c] is removed. *)
Fixpoint lstrip (c : ascii) (s : string) : string :=
  match s with
  | EmptyString => EmptyString
  | String a r => if Ascii.eqb a c then lstrip c r else s
  end.

(** [s.split(sep)] for a one-character separator: never empty. *)
Fixpoint split_aux (sep : ascii) (cur : list ascii) (s : string) : list string :=
  match s with
  | EmptyString => [of_chars (rev cur)]
  | String a r =>
      if Ascii.eqb a sep then of_chars (rev cur) :: split_aux sep [] r
      else split_aux sep (a :: cur) r
  end.

Definition split (sep : ascii) (s : string) : list string :=
  split_aux sep [] s.

(** [s.endswith(suffix)] *)
Definition endswith (s suffix : string) : bool :=
  let n := String.length s in
  let k := String.length suffix in
  (k <=? n)%nat && String.eqb (substring (n - k) k s) suffix.

Definition code (c : ascii) : nat := nat_of_ascii c.

(** White space as [int()] strips it from an ASCII string: TAB, LF, VT,
    FF, CR and the space. *)
Definition is_space (c : ascii) : bool :=
  ((9 <=? code c) && (code c <=? 13) || (code c =? 32))%nat.

Definition is_digit (c : ascii) : bool :=
  ((48 <=? code c) && (code c <=? 57))%nat.

Definition digit_value (c : ascii) : Z := Z.of_nat (code c - 48).

Fixpoint lstrip_space (l : list ascii) : list ascii :=
  match l with
  | [] => []
  | c :: r => if is_space c then lstrip_space r else l
  end.

Definition strip_space (l : list ascii) : list ascii :=
  rev (lstrip_space (rev (lstrip_space l))).

(** Decimal digits, with single underscores allowed between two digits.
    [after_digit] tells whether the previous character was a digit. *)
Fixpoint digits (after_digit : bool) (acc : Z) (l : list ascii) : option Z :=
  match l with
  | [] => if after_digit then Some acc else None
  | c :: r =>
      if is_digit c then digits true (10 * acc + digit_value c) r
      else if Ascii.eqb c "_" && after_digit then digits false acc r
      else None
  end.

(** [int(s)] in base 10; [None] is [ValueError]. *)
Definition int (s : string) : option Z :=
  match strip_space (chars s) with
  | "-"%char :: r => option_map Z.opp (digits false 0 r)
  | "+"%char :: r => digits false 0 r
  | l => digits false 0 l
  end.

(** [str(n)] for an integer. *)
Definition str_int (z : Z) : string := NilZero.string_of_int (Z.to_int z).

(** [x in l] for a list of strings. *)
Definition contains (x : string) (l : list string) : bool :=
  existsb (String.eqb x) l.

(** [sorted(list(set(l)))] for strings: the distinct elements in
    increasing order of code points. *)
Fixpoint insert_sorted (x : string) (l : list string) : list string :=
  match l with
  | [] => [x]
  | y :: r =>
      match String.compare x y with
      | Lt => x :: l
      | Eq => l
      | Gt => y :: insert_sorted x r
      end
  end.

Definition sorted_set (l : list string) : list string :=
  fold_left (fun acc x => insert_sorted x acc) l [].

(** [d.get(key, default)], the optional value being [d]'s entry. *)
Definition get {A : Type} (o : option A) (default : A) : A :=
  match o with Some a => a | None => default end.

(** [l[:n]] *)
Definition slice_to {A : Type} (n : nat) (l : list A) : list A := firstn n l.

End Py.

(** The dictionary [{'year': .., 'month': .., 'patch': ..}] that both
    [_parse_version] methods build. *)
Record Version : Type := mkVersion { year : Z; month : Z; patch : Z }.

(** ** backup_analyzer.py *)

Module BackupAnalyzer.

(** *** The backup archive

    [backup_data] is represented by what [tarfile] and [json] make of the
    bytes: either [tarfile.open] raises [TarError], or it yields the
    members in archive order.  [extractfile] gives no file object for a
    member that is not a regular file; for a regular file the content is
    represented by the outcome of [json.loads] on it. *)

(** An entry of the manifest's [addons] list. *)
Inductive Addon : Type :=
| AddonDict (name slug version : option string)
| AddonStr (s : string).

(** The value under [homeassistant_data]. *)
Inductive HaData : Type :=
| HaDict (integrations components : option (list string))
| HaNotDict.

(** The manifest document: a JSON object following the Supervisor's
    schema.  [other_keys] are the keys the analyzer never reads; they
    matter only for the truth value of the dictionary. *)
Record Manifest : Type := mkManifest {
  homeassistant : option string;
  supervisor : option string;
  name : option string;
  date : option string;
  type : option string;
  size : option Z;
  addons : option (list Addon);
  folders : option (list string);
  homeassistant_data : option HaData;
  other_keys : list string
}.

Inductive Content : Type :=
| JSONDecodeError (msg : string)
| OtherError (msg : string)
| Json (manifest : Manifest).

Record TarInfo : Type := mkTarInfo {
  member_name : string;
  extractfile : option Content
}.

Inductive BackupData : Type :=
| TarError (msg : string)
| Tar (members : list TarInfo).

Definition is_some {A : Type} (o : option A) : bool :=
  match o with Some _ => true | None => false end.

(** [bool(manifest)]: a dictionary is true when it has a key. *)
Definition manifest_truth (m : Manifest) : bool :=
  is_some (homeassistant m) || is_some (supervisor m) || is_some (name m)
  || is_some (date m) || is_some (type m) || is_some (size m)
  || is_some (addons m) || is_some (folders m)
  || is_some (homeassistant_data m)
  || negb (Nat.eqb (List.length (other_keys m)) 0).

(** [member.name.endswith('manifest.json') or member.name == 'manifest.json'] *)
Definition is_manifest_name (member : TarInfo) : bool :=
  Py.endswith (member_name member) "manifest.json"
  || String.eqb (member_name member) "manifest.json".

(** The loop over [tar.getmembers()]: the first matching member that has
    a file object decides; a matching member without one is passed over. *)
Fixpoint scan_members (members : list TarInfo) : Py.result (option Manifest) :=
  match members with
  | [] => Py.Return None
  | member :: rest =>
      if is_manifest_name member then
        match extractfile member with
        | Some (Json manifest) => Py.Return (Some manifest)
        | Some (JSONDecodeError msg) => Py.Raise (Py.Exception msg)
        | Some (OtherError msg) => Py.Raise (Py.Exception msg)
        | None => scan_members rest
        end
      else scan_members rest
  end.

(** Every [except] clause of [_extract_manifest] returns [None]. *)
Definition _extract_manifest (backup_data : BackupData) : option Manifest :=
  Py.try_except
    (match backup_data with
     | TarError msg => Py.Raise (Py.Exception msg)
     | Tar members => scan_members members
     end)
    (fun _ => None).

Definition addon_integration_map (slug : string) : option string :=
  if String.eqb slug "mosquitto" then Some "mqtt"
  else if String.eqb slug "mariadb" then Some "mysql"
  else if String.eqb slug "influxdb" then Some "influxdb"
  else if String.eqb slug "grafana" then Some "grafana"
  else if String.eqb slug "node-red" then Some "node_red"
  else if String.eqb slug "esphome" then Some "esphome"
  else if String.eqb slug "zigbee2mqtt" then Some "mqtt"
  else None.

Definition addon_slug (addon : Addon) : string :=
  match addon with
  | AddonDict _ slug _ => Py.get slug ""
  | AddonStr s => s
  end.

Definition core_integrations : list string :=
  ["homeassistant"; "default_config"; "system_health"].

Definition _extract_integrations (manifest : Manifest) : list string :=
  let integrations :=
    match Py.get (homeassistant_data manifest) (HaDict None None) with
    | HaDict (Some l) _ => l
    | HaDict None (Some l) => l
    | HaDict None None => []
    | HaNotDict => []
    end in
  let integrations :=
    match integrations, addons manifest with
    | [], Some l =>
        fold_left
          (fun acc addon =>
             match addon_integration_map (addon_slug addon) with
             | Some i => (acc ++ [i])%list
             | None => acc
             end)
          l integrations
    | _, _ => integrations
    end in
  let integrations :=
    fold_left
      (fun acc core => if Py.contains core acc then acc else (acc ++ [core])%list)
      core_integrations integrations in
  Py.sorted_set integrations.

(** An entry of [addon_list]. *)
Inductive AddonEntry : Type :=
| Entry (name slug version : string)
| SlugOnly (slug : string).

(** [addon.get('name')] on an entry of [addon_list]. *)
Definition entry_name (e : AddonEntry) : option string :=
  match e with
  | Entry n _ _ => Some n
  | SlugOnly _ => None
  end.

Record Analysis : Type := mkAnalysis {
  homeassistant_version : string;
  supervisor_version : string;
  backup_name : string;
  backup_date : string;
  backup_type : string;
  backup_size : Z;
  addon_list : list AddonEntry;
  folder_list : list string;
  integrations : list string;
  addon_count : nat;
  integration_count : nat
}.

Definition _parse_manifest (manifest : Manifest) : Analysis :=
  let addon_list :=
    map (fun addon =>
           match addon with
           | AddonDict n s v =>
               Entry (Py.get n "unknown") (Py.get s "unknown") (Py.get v "unknown")
           | AddonStr s => SlugOnly s
           end)
        (Py.get (addons manifest) []) in
  let integrations := _extract_integrations manifest in
  {| homeassistant_version := Py.get (homeassistant manifest) "unknown";
     supervisor_version := Py.get (supervisor manifest) "unknown";
     backup_name := Py.get (name manifest) "Unknown";
     backup_date := Py.get (date manifest) "unknown";
     backup_type := Py.get (type manifest) "unknown";
     backup_size := Py.get (size manifest) 0;
     addon_list := addon_list;
     folder_list := Py.get (folders manifest) [];
     integrations := integrations;
     addon_count := List.length addon_list;
     integration_count := List.length integrations |}.

(** The result of [analyze_backup]: [{'success': False, 'error': ..}] or
    [{'success': True, **analysis}]. *)
Inductive AnalysisResult : Type :=
| Failure (error : string)
| Success (analysis : Analysis).

Definition analyze_backup (backup_data : BackupData) : AnalysisResult :=
  Py.try_except
    (match _extract_manifest backup_data with
     | Some manifest =>
         if manifest_truth manifest
         then Py.Return (Success (_parse_manifest manifest))
         else Py.Return (Failure "Could not extract manifest from backup file")
     | None => Py.Return (Failure "Could not extract manifest from backup file")
     end)
    (fun e => Failure (Py.str_exn e)).

Definition _parse_version (version : string) : option Version :=
  let version := Py.lstrip "v" version in
  let parts := Py.split "." version in
  if (List.length parts <? 2)%nat then None
  else
    match Py.int (nth 0 parts "") with
    | None => None
    | Some y =>
        match Py.int (nth 1 parts "") with
        | None => None
        | Some m =>
            if (2 <? List.length parts)%nat then
              match Py.int (nth 2 parts "") with
              | None => None
              | Some p => Some (mkVersion y m p)
              end
            else Some (mkVersion y m 0)
        end
    end.

(** The dictionary returned by [compare_versions]; the keys that only one
    of its shapes has are optional.  With both arguments strings nothing
    in the body of the method raises, so its [except] clause is left out. *)
Record VersionComparison : Type := mkComparison {
  compatible : bool;
  reason : option string;
  backup_version : string;
  current_version : string;
  version_diff : option string;
  year_diff : option Z;
  month_diff : option Z;
  total_months_diff : option Z
}.

Definition compare_versions (backup_version current_version : string)
  : VersionComparison :=
  match _parse_version backup_version, _parse_version current_version with
  | Some backup_parts, Some current_parts =>
      let version_diff :=
        if year backup_parts <? year current_parts then "older"
        else if year backup_parts >? year current_parts then "newer"
        else if month backup_parts <? month current_parts then "older"
        else if month backup_parts >? month current_parts then "newer"
        else if patch backup_parts <? patch current_parts then "older"
        else if patch backup_parts >? patch current_parts then "newer"
        else "same" in
      let compatible := Py.contains version_diff ["same"; "older"] in
      let year_diff := Z.abs (year current_parts - year backup_parts) in
      let month_diff := Z.abs (month current_parts - month backup_parts) in
      {| compatible := compatible;
         reason := None;
         backup_version := backup_version;
         current_version := current_version;
         version_diff := Some version_diff;
         year_diff := Some year_diff;
         month_diff := Some month_diff;
         total_months_diff := Some (year_diff * 12 + month_diff) |}
  | _, _ =>
      {| compatible := false;
         reason := Some "Could not parse version numbers";
         backup_version := backup_version;
         current_version := current_version;
         version_diff := None;
         year_diff := None;
         month_diff := None;
         total_months_diff := None |}
  end.

End BackupAnalyzer.

(** ** breaking_changes.py *)

Module BreakingChangesDB.

(** A breaking-change record: a dictionary read with [.get]. *)
Record Change : Type := mkChange {
  id : option string;
  version : option string;
  integration : option string;
  title : option string;
  description : option string;
  severity : option string;
  url : option string
}.

(** [self.changes]: the dictionary [{'changes': [..], 'last_update': ..}]. *)
Record Store : Type := mkStore {
  changes : option (list Change);
  last_update : option string
}.

(** What [_load_database] finds at [db_path]. *)
Inductive DbFile : Type :=
| Missing
| Unreadable (msg : string)
| Stored (data : Store).

Definition _load_database (file : DbFile) : Store :=
  match file with
  | Stored data => data
  | Missing => {| changes := Some []; last_update := None |}
  | Unreadable _ => {| changes := Some []; last_update := None |}
  end.

Definition curated (i v g t d s u : string) : Change :=
  mkChange (Some i) (Some v) (Some g) (Some t) (Some d) (Some s) (Some u).

Definition _get_curated_breaking_changes : list Change :=
  [ curated "mqtt_2024_10" "2024.10.0" "mqtt"
      "MQTT Discovery Topic Changes"
      "MQTT discovery topics have been reorganized. Devices may need to be reconfigured."
      "medium"
      "https://www.home-assistant.io/blog/2024/10/01/release-202410/";
    curated "zha_2024_9" "2024.9.0" "zha"
      "ZHA Device Naming Convention Changed"
      "Zigbee device names now follow a new convention. Automations may need updates."
      "high"
      "https://www.home-assistant.io/blog/2024/09/01/release-20249/";
    curated "esphome_2024_8" "2024.8.0" "esphome"
      "ESPHome API Version Requirement"
      "ESPHome devices must be running API version 1.9 or higher."
      "medium"
      "https://www.home-assistant.io/blog/2024/08/01/release-20248/";
    curated "homekit_2024_7" "2024.7.0" "homekit"
      "HomeKit Bridge Configuration Changes"
      "HomeKit bridge configuration format has changed. Manual reconfiguration required."
      "high"
      "https://www.home-assistant.io/blog/2024/07/01/release-20247/";
    curated "template_2024_6" "2024.6.0" "template"
      "Template Sensor Syntax Update"
      "Template sensors now require explicit state_class definition."
      "low"
      "https://www.home-assistant.io/blog/2024/06/01/release-20246/";
    curated "automation_2024_5" "2024.5.0" "automation"
      "Automation Trigger ID Requirement"
      "Automation triggers now require unique IDs for proper tracking."
      "low"
      "https://www.home-assistant.io/blog/2024/05/01/release-20245/";
    curated "shelly_2024_4" "2024.4.0" "shelly"
      "Shelly Integration Rewrite"
      "Shelly integration has been completely rewritten. Devices need to be re-added."
      "high"
      "https://www.home-assistant.io/blog/2024/04/01/release-20244/";
    curated "sensor_2024_3" "2024.3.0" "sensor"
      "Sensor Platform Deprecation"
      "Legacy sensor platform configuration is deprecated. Use modern format."
      "medium"
      "https://www.home-assistant.io/blog/2024/03/01/release-20243/" ].

Definition _fetch_breaking_changes : list Change :=
  _get_curated_breaking_changes.

(** [a == b] on the values of [.get('id')]. *)
Definition id_eqb (a b : option string) : bool :=
  match a, b with
  | Some x, Some y => String.eqb x y
  | None, None => true
  | _, _ => false
  end.

(** [any(c.get('id') == change.get('id') for c in existing_changes)] *)
Definition id_present (change : Change) (existing_changes : list Change) : bool :=
  existsb (fun c => id_eqb (id c) (id change)) existing_changes.

(** The loop of [update_database]: [existing_changes] grows as the loop
    runs, so a later record is also compared with the ones just appended. *)
Definition add_new_changes (new_changes existing_changes : list Change)
  : list Change :=
  fold_left
    (fun existing change =>
       if id_present change existing then existing
       else (existing ++ [change])%list)
    new_changes existing_changes.

(** [update_database], with the list that [self._fetch_breaking_changes()]
    returned and the value of [datetime.now().isoformat()] as parameters.
    [_save_database] catches its own exceptions and leaves [self.changes]
    as it is; the file is not part of the state here. *)
Definition update_database (new_changes : list Change) (now : string)
    (db : Store) : Store * bool :=
  match new_changes with
  | [] => (db, false)
  | _ :: _ =>
      let existing_changes := Py.get (changes db) [] in
      let existing_changes := add_new_changes new_changes existing_changes in
      ({| changes := Some existing_changes; last_update := Some now |}, true)
  end.

Definition _parse_version (version : string) : option Version :=
  let version := Py.lstrip "v" version in
  let parts := Py.split "." version in
  if (List.length parts <? 2)%nat then None
  else
    match Py.int (nth 0 parts "") with
    | None => None
    | Some y =>
        match Py.int (nth 1 parts "") with
        | None => None
        | Some m =>
            if (2 <? List.length parts)%nat then
              match Py.int (nth 2 parts "") with
              | None => None
              | Some p => Some (mkVersion y m p)
              end
            else Some (mkVersion y m 0)
        end
    end.

Definition version_val (v : Version) : Z :=
  year v * 10000 + month v * 100 + patch v.

Definition _is_version_in_range (check_version from_version to_version : Version)
  : bool :=
  let check_val := version_val check_version in
  let from_val := version_val from_version in
  let to_val := version_val to_version in
  (from_val <? check_val) && (check_val <=? to_val).

(** [find_breaking_changes] on the store [self.changes]; nothing in its
    body raises on records of strings, so its [except] clause is left out. *)
Definition find_breaking_changes (db : Store) (from_version to_version : string)
    (integrations : list string) : list Change :=
  match _parse_version from_version, _parse_version to_version with
  | Some from_parts, Some to_parts =>
      filter
        (fun change =>
           match _parse_version (Py.get (version change) "") with
           | None => false
           | Some change_parts =>
               if _is_version_in_range change_parts from_parts to_parts then
                 let change_integration := Py.get (integration change) "" in
                 Py.contains change_integration integrations
                 || String.eqb change_integration "all"
               else false
           end)
        (Py.get (changes db) [])
  | _, _ => []
  end.

(** The result of [assess_risk]; [change_count] is optional because only
    one of the two dictionaries the method builds has that key. *)
Record RiskAssessment : Type := mkRisk {
  level : string;
  score : Z;
  message : string;
  change_count : option nat
}.

Definition severity_weights (severity : string) : option Z :=
  if String.eqb severity "low" then Some 1
  else if String.eqb severity "medium" then Some 3
  else if String.eqb severity "high" then Some 5
  else None.

Definition weight (change : Change) : Z :=
  Py.get (severity_weights (Py.get (severity change) "medium")) 3.

Definition assess_risk (breaking_changes : list Change) : RiskAssessment :=
  match breaking_changes with
  | [] =>
      {| level := "low"; score := 0;
         message := "No breaking changes detected";
         change_count := None |}
  | _ :: _ =>
      let risk_score :=
        fold_left (fun acc change => acc + weight change) breaking_changes 0 in
      let '(level, message) :=
        if risk_score <=? 2 then
          ("low", "Minor changes detected. Restoration should be safe.")
        else if risk_score <=? 6 then
          ("medium", "Some breaking changes detected. Review before restoring.")
        else
          ("high",
           "Significant breaking changes detected. Restoration may cause issues.")
      in
      {| level := level; score := risk_score; message := message;
         change_count := Some (List.length breaking_changes) |}
  end.

End BreakingChangesDB.

(** ** backup_manager.py *)

Module BackupManager.

Import Py.

Notation "x <- m ;; k" := (Py.bind m (fun x => k))
  (at level 61, m at next level, right associativity).

(** The response of [core/info]: [{'data': {'version': ..}}]. *)
Record CoreInfo : Type := mkCoreInfo { version : option string }.
Record InfoResponse : Type := mkInfo { data : option CoreInfo }.

(** The two methods of [self.supervisor_api] that [validate_backup]
    calls; each returns or raises. *)
Record SupervisorAPI : Type := mkSupervisorAPI {
  download_backup : string -> result BackupAnalyzer.BackupData;
  get_homeassistant_info : result InfoResponse
}.

(** An element of [issues] or [warnings]. *)
Inductive Finding : Type :=
| VersionFinding (severity message : string)
| BreakingChangeFinding (severity : string)
    (integration message description url : option string).

Definition finding_type (f : Finding) : string :=
  match f with
  | VersionFinding _ _ => "version"
  | BreakingChangeFinding _ _ _ _ _ => "breaking_change"
  end.

Definition finding_severity (f : Finding) : string :=
  match f with
  | VersionFinding s _ => s
  | BreakingChangeFinding s _ _ _ _ => s
  end.

Record BackupInfo : Type := mkBackupInfo {
  info_name : string;
  info_date : string;
  info_type : string;
  info_size : string
}.

Record VersionInfo : Type := mkVersionInfo {
  vi_backup_version : string;
  vi_current_version : string;
  vi_compatible : bool;
  vi_version_diff : option string;
  months_difference : Z
}.

(** The blocks [{'count': .., 'list': ..}]. *)
Record Listing (A : Type) : Type := mkListing {
  count : nat;
  list : List.list A
}.
Arguments mkListing {A} count list.
Arguments count {A} l.
Arguments list {A} l.

Record ChangesBlock : Type := mkChangesBlock {
  changes_count : nat;
  risk_score : Z;
  risk_message : string;
  changes : List.list BreakingChangesDB.Change
}.

Record Validation : Type := mkValidation {
  v_backup_id : string;
  v_status : string;
  v_risk_level : string;
  backup_info : BackupInfo;
  version_info : VersionInfo;
  integrations : Listing string;
  addons : Listing (option string);
  breaking_changes : ChangesBlock;
  issues : List.list Finding;
  warnings : List.list Finding;
  recommendation : string;
  v_timestamp : string
}.

Record ErrorReport : Type := mkErrorReport {
  e_backup_id : string;
  e_status : string;
  e_risk_level : string;
  e_error : string;
  e_timestamp : string
}.

(** The dictionary [validate_backup] returns has one of two shapes. *)
Inductive Report : Type :=
| Error (r : ErrorReport)
| Validated (r : Validation).

Definition status (r : Report) : string :=
  match r with Error e => e_status e | Validated v => v_status v end.

Definition risk_level (r : Report) : string :=
  match r with Error e => e_risk_level e | Validated v => v_risk_level v end.

(** [report.get('error')] *)
Definition error (r : Report) : option string :=
  match r with Error e => Some (e_error e) | Validated _ => None end.

Definition _generate_recommendation (status risk_level : string)
    (issues warnings : List.list Finding) : string :=
  if String.eqb status "incompatible" then
    "⚠️ Restoration not recommended. Critical compatibility issues detected. Please review the issues carefully before proceeding."
  else if String.eqb risk_level "high" then
    "⚠️ Proceed with caution. Significant breaking changes detected that may affect your system. Review all warnings before restoring."
  else if String.eqb risk_level "medium" then
    "ℹ️ Restoration should be safe, but some minor issues were detected. Review the warnings and be prepared to reconfigure affected integrations."
  else
    "✅ Backup appears safe to restore. No significant compatibility issues detected.".

Definition opt_eqb (o : option string) (s : string) : bool :=
  match o with Some x => String.eqb x s | None => false end.

(** [str(d.get('total_months_diff'))] inside the f-string. *)
Definition str_months (o : option Z) : string :=
  match o with Some z => str_int z | None => "None" end.

(** Step 7, first part: the finding about the versions.  The pair is
    [(issues, warnings)]. *)
Definition version_findings (c : BackupAnalyzer.VersionComparison)
    (backup_version current_version : string)
  : List.list Finding * List.list Finding :=
  if negb (BackupAnalyzer.compatible c) then
    if opt_eqb (BackupAnalyzer.version_diff c) "newer" then
      ([VersionFinding "high"
          ("Backup is from a newer version (" ++ backup_version
           ++ ") than current (" ++ current_version
           ++ "). Restoration not recommended.")], [])
    else if Py.get (BackupAnalyzer.total_months_diff c) 0 >? 6 then
      ([], [VersionFinding "medium"
              ("Backup is " ++ str_months (BackupAnalyzer.total_months_diff c)
               ++ " months old. Significant changes may have occurred.")])
    else ([], [])
  else ([], []).

(** Step 7, second part: one finding per matched record, appended in
    order to [issues] or to [warnings]. *)
Definition change_findings (breaking_changes : List.list BreakingChangesDB.Change)
    (acc : List.list Finding * List.list Finding)
  : List.list Finding * List.list Finding :=
  fold_left
    (fun '(issues, warnings) change =>
       let severity :=
         Py.get (BreakingChangesDB.severity change) "medium" in
       let finding :=
         BreakingChangeFinding severity
           (BreakingChangesDB.integration change)
           (BreakingChangesDB.title change)
           (BreakingChangesDB.description change)
           (BreakingChangesDB.url change) in
       if String.eqb severity "high"
       then ((issues ++ [finding])%list, warnings)
       else (issues, (warnings ++ [finding])%list))
    breaking_changes acc.

Definition is_empty {A : Type} (l : List.list A) : bool :=
  match l with [] => true | _ :: _ => false end.

(** Step 8: [(status, risk_level)]. *)
Definition overall_status (issues warnings : List.list Finding)
    (risk_assessment : BreakingChangesDB.RiskAssessment) : string * string :=
  if negb (is_empty issues) then ("incompatible", "high")
  else if String.eqb (BreakingChangesDB.level risk_assessment) "high" then
    ("compatible_with_warnings", "high")
  else if negb (is_empty warnings)
          || String.eqb (BreakingChangesDB.level risk_assessment) "medium" then
    ("compatible_with_warnings", "medium")
  else ("compatible", "low").

Section Manager.

(** The collaborators of one [BackupManager]: the supervisor client, the
    store of [self.breaking_changes_db], [_format_size] (formatting of
    floating-point numbers is outside the embedding) and the value of
    [datetime.utcnow().isoformat()] when the report is built. *)
Variable supervisor_api : SupervisorAPI.
Variable breaking_changes_db : BreakingChangesDB.Store.
Variable _format_size : Z -> string.
Variable utcnow : string.

Definition error_report (backup_id error : string) : Report :=
  Error {| e_backup_id := backup_id;
           e_status := "error";
           e_risk_level := "unknown";
           e_error := error;
           e_timestamp := utcnow |}.

(** The body of the [try] statement of [validate_backup]. *)
Definition validate_backup_body (backup_id : string) : result Report :=
  backup_data <- download_backup supervisor_api backup_id ;;
  match BackupAnalyzer.analyze_backup backup_data with
  | BackupAnalyzer.Failure error => Return (error_report backup_id error)
  | BackupAnalyzer.Success analysis =>
      current_ha_info <- get_homeassistant_info supervisor_api ;;
      let current_version :=
        Py.get
          (version (Py.get (data current_ha_info) (mkCoreInfo None)))
          "Unknown" in
      let backup_version := BackupAnalyzer.homeassistant_version analysis in
      let version_comparison :=
        BackupAnalyzer.compare_versions backup_version current_version in
      let integrations := BackupAnalyzer.integrations analysis in
      let breaking_changes :=
        BreakingChangesDB.find_breaking_changes breaking_changes_db
          backup_version current_version integrations in
      let risk_assessment := BreakingChangesDB.assess_risk breaking_changes in
      let '(issues, warnings) :=
        change_findings breaking_changes
          (version_findings version_comparison backup_version current_version) in
      let '(status, risk_level) :=
        overall_status issues warnings risk_assessment in
      Return (Validated
        {| v_backup_id := backup_id;
           v_status := status;
           v_risk_level := risk_level;
           backup_info :=
             {| info_name := BackupAnalyzer.backup_name analysis;
                info_date := BackupAnalyzer.backup_date analysis;
                info_type := BackupAnalyzer.backup_type analysis;
                info_size := _format_size (BackupAnalyzer.backup_size analysis) |};
           version_info :=
             {| vi_backup_version := backup_version;
                vi_current_version := current_version;
                vi_compatible := BackupAnalyzer.compatible version_comparison;
                vi_version_diff := BackupAnalyzer.version_diff version_comparison;
                months_difference :=
                  Py.get
                    (BackupAnalyzer.total_months_diff version_comparison) 0 |};
           integrations :=
             {| count := BackupAnalyzer.integration_count analysis;
                list := slice_to 20 integrations |};
           addons :=
             {| count := BackupAnalyzer.addon_count analysis;
                list :=
                  slice_to 10
                    (map BackupAnalyzer.entry_name
                       (BackupAnalyzer.addon_list analysis)) |};
           breaking_changes :=
             {| changes_count := List.length breaking_changes;
                risk_score := BreakingChangesDB.score risk_assessment;
                risk_message := BreakingChangesDB.message risk_assessment;
                changes := breaking_changes |};
           issues := issues;
           warnings := warnings;
           recommendation :=
             _generate_recommendation status risk_level issues warnings;
           v_timestamp := utcnow |})
  end.

Definition validate_backup (backup_id : string) : Report :=
  try_except (validate_backup_body backup_id)
    (fun e => error_report backup_id (str_exn e)).

End Manager.

End BackupManager.

(** ** The specification's wording, for comparison with the code *)

Module Spec.

(** "Strip a single leading [v] prefix if present." *)
Definition strip_single_v (s : string) : string :=
  match s with
  | String a r => if Ascii.eqb a "v" then r else s
  | EmptyString => EmptyString
  end.

(** "Comparison is lexicographic over (year, month, patch)." *)
Definition version_ltb (a b : Version) : bool :=
  (year a <? year b)
  || (year a =? year b)
     && ((month a <? month b)
         || (month a =? month b) && (patch a <? patch b)).

Definition version_eqb (a b : Version) : bool :=
  (year a =? year b) && (month a =? month b) && (patch a =? patch b).

Definition version_leb (a b : Version) : bool :=
  version_ltb a b || version_eqb a b.

(** "Half-open interval: from < v <= to." *)
Definition in_half_open_range (v from to : Version) : bool :=
  version_ltb from v && version_leb v to.

(** "score = sum of per-record weight by severity". *)
Definition sum_of_weights (records : list BreakingChangesDB.Change) : Z :=
  fold_right (fun r acc => BreakingChangesDB.weight r + acc) 0 records.

(** "score <= 2: low; 3-6: medium; > 6: high". *)
Definition level_of_score (score : Z) : string :=
  if score <=? 2 then "low" else if score <=? 6 then "medium" else "high".

End Spec.

(** ** Concrete backups, stores and collaborators *)

Module Scenario.

Import BackupAnalyzer BreakingChangesDB.

(** A manifest with only [homeassistant] and one addon. *)
Definition manifest_zigbee : Manifest :=
  {| homeassistant := Some "2024.5.0";
     supervisor := None; name := None; date := None; type := None;
     size := None;
     addons := Some [AddonDict None (Some "zigbee2mqtt") None];
     folders := None; homeassistant_data := None; other_keys := [] |}.

Definition archive_of (m : Manifest) : BackupData :=
  Tar [ mkTarInfo "./homeassistant.tar.gz" None;
        mkTarInfo "./manifest.json" (Some (Json m)) ].

(** An archive without any manifest entry. *)
Definition archive_no_manifest : BackupData :=
  Tar [ mkTarInfo "./homeassistant.tar.gz" None;
        mkTarInfo "./backup.json" (Some (Json manifest_zigbee)) ].

(** An archive whose manifest entry is not JSON. *)
Definition archive_bad_json : BackupData :=
  Tar [ mkTarInfo "./homeassistant.tar.gz" None;
        mkTarInfo "./manifest.json"
          (Some (JSONDecodeError "Expecting value: line 1 column 1 (char 0)")) ].

Definition supervisor_of (backup : Py.result BackupData) (current : string)
  : BackupManager.SupervisorAPI :=
  BackupManager.mkSupervisorAPI
    (fun _ => backup)
    (Py.Return (BackupManager.mkInfo
                  (Some (BackupManager.mkCoreInfo (Some current))))).

Definition format_size (size_bytes : Z) : string := "0.0 B".

Definition timestamp : string := "2024-10-20T08:00:00".

(** The store of a fresh installation after one [update_database]. *)
Definition curated_store : Store :=
  fst (update_database _fetch_breaking_changes timestamp (_load_database Missing)).

Definition validate (api : BackupManager.SupervisorAPI) (db : Store)
  : BackupManager.Report :=
  BackupManager.validate_backup api db format_size timestamp "a1b2c3d4".

(** The end-to-end run: backup 2024.5.0 with zigbee2mqtt, system 2024.10.1. *)
Definition report_zigbee : BackupManager.Report :=
  validate (supervisor_of (Py.Return (archive_of manifest_zigbee)) "2024.10.1")
    curated_store.

Definition mqtt_2024_10 : Change := nth 0 _get_curated_breaking_changes (mkChange None None None None None None None).
Definition zha_2024_9 : Change := nth 1 _get_curated_breaking_changes mqtt_2024_10.
Definition esphome_2024_8 : Change := nth 2 _get_curated_breaking_changes mqtt_2024_10.

(** A backup that is 21 months older than the running system. *)
Definition manifest_old : Manifest :=
  {| homeassistant := Some "2023.1.0";
     supervisor := None; name := None; date := None; type := None;
     size := None; addons := None; folders := None;
     homeassistant_data := None; other_keys := [] |}.

Definition report_old : BackupManager.Report :=
  validate (supervisor_of (Py.Return (archive_of manifest_old)) "2024.10.1")
    curated_store.





End Scenario.

(** ** Notions used in the statements *)

(** The dot-segments [_parse_version] converts. *)
Definition segments (s : string) : list string :=
  Py.split "." (Py.lstrip "v" s).

(** Month and patch are below 100, so that they fit their two decimal
    places in [year * 10000 + month * 100 + patch]. *)
Definition two_digit (v : Version) : Prop :=
  0 <= month v < 100 /\ 0 <= patch v < 100.

(** The text of the first failure of a validation call, if a step fails:
    the download raises, the analysis fails, or the request for the running
    version raises. *)
Definition first_failure (api : BackupManager.SupervisorAPI)
    (backup_id : string) : option string :=
  match BackupManager.download_backup api backup_id with
  | Py.Raise e => Some (Py.str_exn e)
  | Py.Return backup_data =>
      match BackupAnalyzer.analyze_backup backup_data with
      | BackupAnalyzer.Failure error => Some error
      | BackupAnalyzer.Success _ =>
          match BackupManager.get_homeassistant_info api with
          | Py.Raise e => Some (Py.str_exn e)
          | Py.Return _ => None
          end
      end
  end.

(** A member the scan passes over: another name, or no file object. *)
Definition passed_over (member : BackupAnalyzer.TarInfo) : bool :=
  negb (BackupAnalyzer.is_manifest_name member)
  || negb (BackupAnalyzer.is_some (BackupAnalyzer.extractfile member)).

(** ** backup_manager.py: the other methods *)

Module BackupOperations.

Import Py.

(** [l.sort(key=key, reverse=True)] for keys that are strings: the
    elements in decreasing order of their keys, those with equal keys in
    their original order. *)
Fixpoint insert_desc {A : Type} (key : A -> string) (x : A) (l : list A)
  : list A :=
  match l with
  | [] => [x]
  | y :: r =>
      if String.ltb (key x) (key y) then y :: insert_desc key x r
      else x :: l
  end.

Definition sort_desc {A : Type} (key : A -> string) (l : list A) : list A :=
  fold_right (insert_desc key) [] l.

(** An element of the list the supervisor returns for [backups].  Every
    backup there has a date, a string; the other keys are optional. *)
Record Backup : Type := mkBackup {
  slug : option string;
  name : option string;
  date : string;
  size : option Z;
  type : option string;
  protected : option bool;
  compressed : option bool
}.

(** An element of the list [get_backups] returns. *)
Record Formatted : Type := mkFormatted {
  f_id : option string;
  f_name : option string;
  f_date : string;
  f_size : string;
  f_size_bytes : Z;
  f_type : option string;
  f_protected : bool;
  f_compressed : bool
}.

(** The response of [backups/new/full]: [{'data': {'slug': ..}}]. *)
Record NewBackup : Type := mkNewBackup { new_slug : option string }.
Record CreateResponse : Type := mkCreateResponse { data : option NewBackup }.

(** The methods of [self.supervisor_api] the other operations call; each
    returns or raises. *)
Record SupervisorOps : Type := mkSupervisorOps {
  api_get_backups : result (list Backup);
  api_create_backup : string -> option string -> result CreateResponse;
  api_restore_backup : string -> option string -> result unit;
  api_delete_backup : string -> result unit
}.

Record Created : Type := mkCreated {
  c_backup_id : option string;
  c_message : string;
  c_timestamp : string
}.

Record Restored : Type := mkRestored {
  r_backup_id : string;
  r_message : string;
  validation : BackupManager.Report;
  r_timestamp : string
}.

(** The dictionary of [_check_version_compatibility]; the keys after
    [message] are there for one status each. *)
Record Compatibility : Type := mkCompatibility {
  status : string;
  message : string;
  backup_major : option Z;
  current_major : option Z;
  backup_minor : option Z;
  current_minor : option Z
}.

(** [BackupManager._parse_version]: the tuple (major, minor, patch). *)
Definition _parse_version (version_string : string) : option (Z * Z * Z) :=
  let version_string := lstrip "v" version_string in
  let parts := split "." version_string in
  if (2 <=? List.length parts)%nat then
    match int (nth 0 parts "") with
    | None => None
    | Some major =>
        match int (nth 1 parts "") with
        | None => None
        | Some minor =>
            if (2 <? List.length parts)%nat then
              match int (nth 2 parts "") with
              | None => None
              | Some patch => Some (major, minor, patch)
              end
            else Some (major, minor, 0)
        end
    end
  else None.

Definition _check_version_compatibility
    (backup_version current_version : string) : Compatibility :=
  match _parse_version backup_version, _parse_version current_version with
  | Some (b0, b1, _), Some (c0, c1, _) =>
      if negb (b0 =? c0) then
        {| status := "incompatible"; message := "Major version mismatch";
           backup_major := Some b0; current_major := Some c0;
           backup_minor := None; current_minor := None |}
      else if Z.abs (b1 - c1) >? 2 then
        {| status := "warning";
           message := "Significant minor version difference";
           backup_major := None; current_major := None;
           backup_minor := Some b1; current_minor := Some c1 |}
      else
        {| status := "compatible"; message := "Versions are compatible";
           backup_major := None; current_major := None;
           backup_minor := None; current_minor := None |}
  | _, _ =>
      {| status := "unknown"; message := "Unable to parse version numbers";
         backup_major := None; current_major := None;
         backup_minor := None; current_minor := None |}
  end.

Section Operations.

(** The collaborators: the supervisor client for the operations and for
    the validation, the store, [_format_size] and the clock. *)
Variable ops : SupervisorOps.
Variable supervisor_api : BackupManager.SupervisorAPI.
Variable breaking_changes_db : BreakingChangesDB.Store.
Variable _format_size : Z -> string.

Definition format_backup (backup : Backup) : Formatted :=
  {| f_id := slug backup;
     f_name := name backup;
     f_date := date backup;
     f_size := _format_size (get (size backup) 0);
     f_size_bytes := get (size backup) 0;
     f_type := type backup;
     f_protected := get (protected backup) false;
     f_compressed := get (compressed backup) true |}.

(** [get_backups]: an exception of the supervisor is raised again. *)
Definition get_backups : result (list Formatted) :=
  bind (api_get_backups ops)
    (fun backups => Return (sort_desc f_date (map format_backup backups))).

(** [create_backup], [utcnow] being the time of the answer. *)
Definition create_backup (name : string) (password : option string)
    (utcnow : string) : result Created :=
  bind (api_create_backup ops name password)
    (fun result =>
       Return {| c_backup_id := new_slug (get (data result) (mkNewBackup None));
                 c_message := "Backup created successfully";
                 c_timestamp := utcnow |}).

(** [restore_backup]: the validation runs first, with its own time
    stamp, and the restore is requested whatever its verdict. *)
Definition restore_backup (backup_id : string) (password : option string)
    (validated_at utcnow : string) : result Restored :=
  let validation :=
    BackupManager.validate_backup supervisor_api breaking_changes_db
      _format_size validated_at backup_id in
  bind (api_restore_backup ops backup_id password)
    (fun result =>
       Return {| r_backup_id := backup_id;
                 r_message := "Backup restore initiated";
                 validation := validation;
                 r_timestamp := utcnow |}).

Definition delete_backup (backup_id : string) : result unit :=
  bind (api_delete_backup ops backup_id) (fun _ => Return tt).

End Operations.

End BackupOperations.

(** ** config_manager.py *)

Module ConfigManager.

(** A JSON value of the configuration.  Numbers with a fraction are
    outside the embedding. *)
#[warnings="-register-all"]
Inductive json : Type :=
| JNull
| JBool (b : bool)
| JInt (z : Z)
| JStr (s : string)
| JArray (l : list json)
| JObject (l : list (string * json)).

(** [bool(v)] *)
Definition py_bool (v : json) : bool :=
  match v with
  | JNull => false
  | JBool b => b
  | JInt z => negb (z =? 0)
  | JStr s => negb (String.eqb s "")
  | JArray l => match l with [] => false | _ :: _ => true end
  | JObject l => match l with [] => false | _ :: _ => true end
  end.

(** [int(v)]; [None] is [ValueError] or [TypeError]. *)
Definition py_int (v : json) : option Z :=
  match v with
  | JInt z => Some z
  | JBool b => Some (if b then 1 else 0)
  | JStr s => Py.int s
  | JNull => None
  | JArray _ => None
  | JObject _ => None
  end.

(** A configuration dictionary: the seven keys the manager knows, each
    present or not, and the other keys. *)
Record Config : Type := mkConfig {
  auto_backup : option json;
  backup_schedule : option json;
  backup_retention : option json;
  notifications_enabled : option json;
  debug_mode : option json;
  validate_before_restore : option json;
  compression_enabled : option json;
  other : list (string * json)
}.

Definition DEFAULT_CONFIG : Config :=
  {| auto_backup := Some (JBool true);
     backup_schedule := Some (JStr "daily");
     backup_retention := Some (JInt 7);
     notifications_enabled := Some (JBool true);
     debug_mode := Some (JBool false);
     validate_before_restore := Some (JBool true);
     compression_enabled := Some (JBool true);
     other := [] |}.

Definition valid_schedules : list string :=
  ["hourly"; "daily"; "weekly"; "monthly"].

(** [schedule in valid_schedules] *)
Definition is_valid_schedule (schedule : json) : bool :=
  match schedule with
  | JStr s => Py.contains s valid_schedules
  | _ => false
  end.

Definition _validate_config (config : Config) : Config :=
  let schedule := Py.get (backup_schedule config) (JStr "daily") in
  let retention := Py.get (backup_retention config) (JInt 7) in
  {| auto_backup :=
       Some (JBool (py_bool (Py.get (auto_backup config) (JBool true))));
     backup_schedule :=
       Some (if is_valid_schedule schedule then schedule else JStr "daily");
     backup_retention :=
       Some (match py_int retention with
             | Some retention => JInt (Z.max 1 (Z.min 365 retention))
             | None => JInt 7
             end);
     notifications_enabled :=
       Some (JBool (py_bool
                      (Py.get (notifications_enabled config) (JBool true))));
     debug_mode :=
       Some (JBool (py_bool (Py.get (debug_mode config) (JBool false))));
     validate_before_restore :=
       Some (JBool (py_bool
                      (Py.get (validate_before_restore config) (JBool true))));
     compression_enabled :=
       Some (JBool (py_bool
                      (Py.get (compression_enabled config) (JBool true))));
     other := [] |}.

(** [d.update(e)] on the other keys: a key of [e] replaces the value it
    has in [d], or is added at the end. *)
Fixpoint set_key (k : string) (v : json) (d : list (string * json))
  : list (string * json) :=
  match d with
  | [] => [(k, v)]
  | (k', v') :: r =>
      if String.eqb k' k then (k, v) :: r else (k', v') :: set_key k v r
  end.

Definition update_keys (d e : list (string * json)) : list (string * json) :=
  fold_left (fun acc kv => set_key (fst kv) (snd kv) acc) e d.

Definition or_else {A : Type} (o d : option A) : option A :=
  match o with Some a => Some a | None => d end.

(** [d.update(e)] on configuration dictionaries. *)
Definition update (d e : Config) : Config :=
  {| auto_backup := or_else (auto_backup e) (auto_backup d);
     backup_schedule := or_else (backup_schedule e) (backup_schedule d);
     backup_retention := or_else (backup_retention e) (backup_retention d);
     notifications_enabled :=
       or_else (notifications_enabled e) (notifications_enabled d);
     debug_mode := or_else (debug_mode e) (debug_mode d);
     validate_before_restore :=
       or_else (validate_before_restore e) (validate_before_restore d);
     compression_enabled :=
       or_else (compression_enabled e) (compression_enabled d);
     other := update_keys (other d) (other e) |}.

(** What is at [config_path]: no file, a file that cannot be read as
    JSON, or a JSON object. *)
Inductive ConfigFile : Type :=
| FileNotFound
| Unreadable (msg : string)
| Holds (config : Config).

Definition get_config (file : ConfigFile) : Config :=
  match file with
  | Holds config => update DEFAULT_CONFIG config
  | FileNotFound => DEFAULT_CONFIG
  | Unreadable _ => DEFAULT_CONFIG
  end.

(** [_save_config]: the file after a write that succeeds. *)
Definition _save_config (config : Config) : ConfigFile := Holds config.

Definition save_config (config : Config) : ConfigFile :=
  _save_config (_validate_config config).

Definition update_config (updates : Config) (file : ConfigFile) : ConfigFile :=
  save_config (update (get_config file) updates).

Definition reset_to_defaults : ConfigFile := _save_config DEFAULT_CONFIG.

(** [config.get(key, default)] *)
Definition lookup (config : Config) (key : string) : option json :=
  if String.eqb key "auto_backup" then auto_backup config
  else if String.eqb key "backup_schedule" then backup_schedule config
  else if String.eqb key "backup_retention" then backup_retention config
  else if String.eqb key "notifications_enabled" then
    notifications_enabled config
  else if String.eqb key "debug_mode" then debug_mode config
  else if String.eqb key "validate_before_restore" then
    validate_before_restore config
  else if String.eqb key "compression_enabled" then compression_enabled config
  else
    match find (fun kv => String.eqb (fst kv) key) (other config) with
    | Some kv => Some (snd kv)
    | None => None
    end.

Definition get_value (key : string) (default : json) (file : ConfigFile)
  : json :=
  Py.get (lookup (get_config file) key) default.

(** The dictionary [{key: value}]. *)
Definition single (key : string) (value : json) : Config :=
  let at_key k := if String.eqb key k then Some value else None in
  {| auto_backup := at_key "auto_backup";
     backup_schedule := at_key "backup_schedule";
     backup_retention := at_key "backup_retention";
     notifications_enabled := at_key "notifications_enabled";
     debug_mode := at_key "debug_mode";
     validate_before_restore := at_key "validate_before_restore";
     compression_enabled := at_key "compression_enabled";
     other :=
       if Py.contains key
            ["auto_backup"; "backup_schedule"; "backup_retention";
             "notifications_enabled"; "debug_mode";
             "validate_before_restore"; "compression_enabled"]
       then [] else [(key, value)] |}.

Definition set_value (key : string) (value : json) (file : ConfigFile)
  : ConfigFile :=
  update_config (single key value) file.

End ConfigManager.

(** ** breaking_changes.py: the object *)

Module BreakingChangesInstance.

(** A [BreakingChangesDB] object: [self.changes] and [self.last_update]. *)
Record Instance : Type := mkInstance {
  self_changes : BreakingChangesDB.Store;
  self_last_update : option string
}.

Definition _get_last_update (changes : BreakingChangesDB.Store)
  : option string :=
  BreakingChangesDB.last_update changes.

(** [__init__], [file] being what is at [db_path]. *)
Definition init (file : BreakingChangesDB.DbFile) : Instance :=
  let changes := BreakingChangesDB._load_database file in
  {| self_changes := changes;
     self_last_update := _get_last_update changes |}.

(** [update_database] on the object: it assigns to the entries of
    [self.changes] and to no attribute. *)
Definition update_database (new_changes : list BreakingChangesDB.Change)
    (now : string) (self : Instance) : Instance * bool :=
  let '(changes, updated) :=
    BreakingChangesDB.update_database new_changes now (self_changes self) in
  ({| self_changes := changes;
      self_last_update := self_last_update self |}, updated).

(** Successive updates, each with what was fetched and its time. *)
Definition updates (fetches : list (list BreakingChangesDB.Change * string))
    (self : Instance) : Instance :=
  fold_left (fun s f => fst (update_database (fst f) (snd f) s)) fetches self.

End BreakingChangesInstance.

(** ** Further notions used in the statements *)

From Stdlib Require Sorted Permutation OrderedTypeEx DecimalPos.

(** Strictly increasing in the order of code points, so without repeats. *)
Definition increasing (l : list string) : Prop :=
  Sorted.StronglySorted (fun a b => String.compare a b = Lt) l.

(** The list [_extract_integrations] starts from: the one under
    [homeassistant_data], [integrations] before [components]. *)
Definition declared_integrations (m : BackupAnalyzer.Manifest) : list string :=
  match BackupAnalyzer.homeassistant_data m with
  | Some (BackupAnalyzer.HaDict (Some l) _) => l
  | Some (BackupAnalyzer.HaDict None (Some l)) => l
  | _ => []
  end.

(** The integrations of the addons whose slug is in the map, in order. *)
Definition inferred_integrations (m : BackupAnalyzer.Manifest) : list string :=
  flat_map
    (fun addon =>
       match BackupAnalyzer.addon_integration_map
               (BackupAnalyzer.addon_slug addon) with
       | Some i => [i]
       | None => []
       end)
    (Py.get (BackupAnalyzer.addons m) []).

(** Whether a record of the store applies to a range and to a list of
    integrations, as [find_breaking_changes] decides it. *)
Definition applies (from_parts to_parts : Version) (integrations : list string)
    (change : BreakingChangesDB.Change) : Prop :=
  exists change_parts,
    BreakingChangesDB._parse_version
      (Py.get (BreakingChangesDB.version change) "") = Some change_parts
    /\ BreakingChangesDB.version_val from_parts
       < BreakingChangesDB.version_val change_parts
       <= BreakingChangesDB.version_val to_parts
    /\ (In (Py.get (BreakingChangesDB.integration change) "") integrations
        \/ BreakingChangesDB.integration change = Some "all").

(** The rank of a risk level. *)
Definition level_rank (level : string) : Z :=
  if String.eqb level "low" then 0
  else if String.eqb level "medium" then 1
  else 2.

(** The severity of a matched record as [validate_backup] reads it. *)
Definition is_high (change : BreakingChangesDB.Change) : bool :=
  String.eqb (Py.get (BreakingChangesDB.severity change) "medium") "high".

(** The finding [validate_backup] builds for a matched record. *)
Definition finding_of (change : BreakingChangesDB.Change)
  : BackupManager.Finding :=
  BackupManager.BreakingChangeFinding
    (Py.get (BreakingChangesDB.severity change) "medium")
    (BreakingChangesDB.integration change)
    (BreakingChangesDB.title change)
    (BreakingChangesDB.description change)
    (BreakingChangesDB.url change).

(** The other direction of a version difference. *)
Definition opposite (version_diff : string) : string :=
  if String.eqb version_diff "older" then "newer"
  else if String.eqb version_diff "newer" then "older"
  else version_diff.

(** The running version [validate_backup] reads from the response of the
    supervisor. *)
Definition running_version (info : BackupManager.InfoResponse) : string :=
  Py.get (BackupManager.version
            (Py.get (BackupManager.data info) (BackupManager.mkCoreInfo None)))
    "Unknown".


(** Decreasing by date: no element has a date before that of a later one. *)
Definition newest_first (l : list BackupOperations.Formatted) : Prop :=
  Sorted.StronglySorted
    (fun a b =>
       String.ltb (BackupOperations.f_date a) (BackupOperations.f_date b)
       = false) l.

(** The elements of a list that have a given date, in order. *)
Definition dated (d : string) (l : list BackupOperations.Formatted)
  : list BackupOperations.Formatted :=
  filter (fun f => String.eqb (BackupOperations.f_date f) d) l.

(** A configuration as [_validate_config] leaves it: the seven keys and no
    other, the flags Booleans, the schedule one of the four, the
    retention an integer from 1 to 365. *)
Definition valid_config (c : ConfigManager.Config) : Prop :=
  exists (a n d v k : bool) (s : string) (r : Z),
    c = ConfigManager.mkConfig
          (Some (ConfigManager.JBool a)) (Some (ConfigManager.JStr s))
          (Some (ConfigManager.JInt r)) (Some (ConfigManager.JBool n))
          (Some (ConfigManager.JBool d)) (Some (ConfigManager.JBool v))
          (Some (ConfigManager.JBool k)) []
    /\ In s ConfigManager.valid_schedules
    /\ 1 <= r <= 365.

(** The seven keys of the configuration. *)
Definition config_keys : list string :=
  ["auto_backup"; "backup_schedule"; "backup_retention";
   "notifications_enabled"; "debug_mode"; "validate_before_restore";
   "compression_enabled"].

(** ** Further concrete cases *)

Module Cases.

(** [integrations] present and empty, [components] not empty. *)
Definition manifest_empty_integrations : BackupAnalyzer.Manifest :=
  BackupAnalyzer.mkManifest (Some "2024.5.0") None None None None None
    (Some [BackupAnalyzer.AddonStr "mosquitto"]) None
    (Some (BackupAnalyzer.HaDict (Some []) (Some ["zha"]))) [].

(** A backup of 2024.5.0 that declares its integrations. *)
Definition manifest_zha : BackupAnalyzer.Manifest :=
  BackupAnalyzer.mkManifest (Some "2024.5.0") None (Some "weekly") None None
    None None None
    (Some (BackupAnalyzer.HaDict (Some ["zha"; "mqtt"]) None)) [].

Definition report_zha : BackupManager.Report :=
  Scenario.validate
    (Scenario.supervisor_of
       (Py.Return (Scenario.archive_of manifest_zha)) "2024.10.1")
    Scenario.curated_store.

(** A manifest without the [homeassistant] key. *)
Definition manifest_no_version : BackupAnalyzer.Manifest :=
  BackupAnalyzer.mkManifest None None (Some "weekly") None None None
    (Some [BackupAnalyzer.AddonStr "zigbee2mqtt"]) None None [].

Definition report_no_version : BackupManager.Report :=
  Scenario.validate
    (Scenario.supervisor_of
       (Py.Return (Scenario.archive_of manifest_no_version)) "2024.10.1")
    Scenario.curated_store.

(** A backup of a release later than the running one. *)
Definition manifest_newer : BackupAnalyzer.Manifest :=
  BackupAnalyzer.mkManifest (Some "2025.1.0") None None None None None
    None None
    (Some (BackupAnalyzer.HaDict (Some ["zha"; "mqtt"]) None)) [].

Definition report_newer : BackupManager.Report :=
  Scenario.validate
    (Scenario.supervisor_of
       (Py.Return (Scenario.archive_of manifest_newer)) "2024.10.1")
    Scenario.curated_store.

(** Three backups, two of them of the same date. *)
Definition three_backups : list BackupOperations.Backup :=
  [ BackupOperations.mkBackup (Some "a1") (Some "first") "2024-09-01"
      (Some 10) None None None;
    BackupOperations.mkBackup (Some "b2") (Some "second") "2024-10-01"
      None None (Some true) None;
    BackupOperations.mkBackup (Some "c3") (Some "third") "2024-09-01"
      (Some 30) None None (Some false) ].

Definition ops_of (backups : Py.result (list BackupOperations.Backup))
    (restore : Py.result unit) : BackupOperations.SupervisorOps :=
  BackupOperations.mkSupervisorOps backups
    (fun _ _ => Py.Return (BackupOperations.mkCreateResponse
                             (Some (BackupOperations.mkNewBackup
                                      (Some "d4e5f6a7")))))
    (fun _ _ => restore)
    (fun _ => Py.Return tt).

End Cases.

(** * Properties *)

Import Scenario.

(** ** Python primitives on examples *)

Example split_examples :
  Py.split "." "2024.10.1" = ["2024"; "10"; "1"]
  /\ Py.split "." "" = [""]
  /\ Py.split "." "2024." = ["2024"; ""].
Proof. repeat split. Qed.

Example int_examples :
  Py.int " -1_000 " = Some (-1000)
  /\ Py.int "+07" = Some 7
  /\ Py.int "1__0" = None
  /\ Py.int "" = None
  /\ Py.int "10b" = None.
Proof. repeat split. Qed.

Example sorted_set_example :
  Py.sorted_set ["mqtt"; "homeassistant"; "default_config"; "mqtt"]
  = ["default_config"; "homeassistant"; "mqtt"].
Proof. reflexivity. Qed.

Example compare_versions_examples :
  BackupAnalyzer.version_diff
    (BackupAnalyzer.compare_versions "2024.9" "2024.10") = Some "older"
  /\ BackupAnalyzer.total_months_diff
       (BackupAnalyzer.compare_versions "2024.9" "2024.10") = Some 1
  /\ BackupAnalyzer.compatible
       (BackupAnalyzer.compare_versions "2025.1" "2024.12") = false.
Proof. repeat split. Qed.

(** ** Version strings *)

Section ParseVersion.

Lemma parse_version_same (s : string) :
  BreakingChangesDB._parse_version s = BackupAnalyzer._parse_version s.
Proof. reflexivity. Qed.

Lemma lstrip_idempotent (c : ascii) (s : string) :
  Py.lstrip c (Py.lstrip c s) = Py.lstrip c s.
Proof.
  induction s as [|a r IH]; simpl; [reflexivity|].
  destruct (Ascii.eqb a c) eqn:E; [exact IH|].
  simpl. now rewrite E.
Qed.

Lemma parse_version_short (s : string) :
  (List.length (segments s) < 2)%nat -> BackupAnalyzer._parse_version s = None.
Proof.
  unfold BackupAnalyzer._parse_version, segments. intros H.
  apply Nat.ltb_lt in H. now rewrite H.
Qed.

Lemma parse_version_non_numeric (s : string) (i : nat) :
  (i < 3)%nat -> (i < List.length (segments s))%nat ->
  Py.int (nth i (segments s) "") = None ->
  BackupAnalyzer._parse_version s = None.
Proof.
  unfold BackupAnalyzer._parse_version, segments. intros Hi Hlen Hint.
  destruct (List.length _ <? 2)%nat eqn:E2; [reflexivity|].
  destruct i as [|[|[|i]]]; try lia.
  - now rewrite Hint.
  - rewrite Hint.
    now destruct (Py.int (nth 0 (Py.split "." (Py.lstrip "v" s)) "")).
  - apply Nat.ltb_lt in Hlen. rewrite Hlen, Hint.
    now destruct (Py.int (nth 0 (Py.split "." (Py.lstrip "v" s)) "")),
      (Py.int (nth 1 (Py.split "." (Py.lstrip "v" s)) "")).
Qed.

End ParseVersion.

(** C7, as stated, fails: with a single [v] removed the first segment of
    ["vv2024.10"] is ["v2024"], not a number, and yet the string parses. *)
Lemma parse_version_single_v_refuted :
  ~ (forall s : string,
        Py.int (nth 0 (Py.split "." (Spec.strip_single_v s)) "") = None ->
        BackupAnalyzer._parse_version s = None).
Proof.
  intros H. specialize (H "vv2024.10" eq_refl). discriminate H.
Qed.

(** C7, amended: both [_parse_version] methods remove every leading [v]
    before splitting on the dot; the string fails to parse when fewer than
    two segments remain, or when one of the segments it converts (the first
    three) is not an integer literal. *)
Theorem parse_version_strips_every_v (s : string) :
  BreakingChangesDB._parse_version s = BackupAnalyzer._parse_version s
  /\ BackupAnalyzer._parse_version (String "v" s)
     = BackupAnalyzer._parse_version s
  /\ BackupAnalyzer._parse_version (Py.lstrip "v" s)
     = BackupAnalyzer._parse_version s
  /\ ((List.length (segments s) < 2)%nat ->
      BackupAnalyzer._parse_version s = None)
  /\ (forall i : nat,
        (i < 3)%nat -> (i < List.length (segments s))%nat ->
        Py.int (nth i (segments s) "") = None ->
        BackupAnalyzer._parse_version s = None).
Proof.
  repeat split.
  - unfold BackupAnalyzer._parse_version. now rewrite lstrip_idempotent.
  - apply parse_version_short.
  - apply parse_version_non_numeric.
Qed.

Lemma parse_version_strips_every_v_witness :
  BackupAnalyzer._parse_version "vvv2024.10.1" = Some (mkVersion 2024 10 1)
  /\ BackupAnalyzer._parse_version "v2024" = None
  /\ BackupAnalyzer._parse_version "vvbeta.10" = None.
Proof.
  split; [|split].
  - rewrite <- (proj1 (proj2 (proj2 (parse_version_strips_every_v "vvv2024.10.1")))).
    reflexivity.
  - apply (proj1 (proj2 (proj2 (proj2 (parse_version_strips_every_v "v2024"))))).
    vm_compute. lia.
  - apply (proj2 (proj2 (proj2 (proj2 (parse_version_strips_every_v "vvbeta.10")))) 0%nat).
    + lia.
    + vm_compute. lia.
    + reflexivity.
Defined.

(** ** The range test of the store *)

Section VersionRange.

Ltac split_tests :=
  repeat match goal with
         | |- context [?a <? ?b] => destruct (Z.ltb_spec a b)
         | |- context [?a <=? ?b] => destruct (Z.leb_spec a b)
         | |- context [?a =? ?b] => destruct (Z.eqb_spec a b)
         end.

Lemma version_val_lt (a b : Version) :
  two_digit a -> two_digit b ->
  (BreakingChangesDB.version_val a <? BreakingChangesDB.version_val b)
  = Spec.version_ltb a b.
Proof.
  unfold two_digit, BreakingChangesDB.version_val, Spec.version_ltb.
  intros [Ha1 Ha2] [Hb1 Hb2].
  split_tests; simpl; try reflexivity; lia.
Qed.

Lemma version_val_le (a b : Version) :
  two_digit a -> two_digit b ->
  (BreakingChangesDB.version_val a <=? BreakingChangesDB.version_val b)
  = Spec.version_leb a b.
Proof.
  unfold two_digit, BreakingChangesDB.version_val, Spec.version_leb,
    Spec.version_ltb, Spec.version_eqb.
  intros [Ha1 Ha2] [Hb1 Hb2].
  split_tests; simpl; try reflexivity; lia.
Qed.

End VersionRange.

(** C6, as stated, fails: the weighted sum is not the lexicographic order
    once a patch number has three digits.  2024.9.101 is after 2024.5.0 and
    before 2024.10.0, as [compare_versions] also finds, and the range test
    leaves it out. *)
Lemma version_in_range_not_lexicographic :
  BreakingChangesDB._is_version_in_range
    (mkVersion 2024 9 101) (mkVersion 2024 5 0) (mkVersion 2024 10 0) = false
  /\ Spec.in_half_open_range
       (mkVersion 2024 9 101) (mkVersion 2024 5 0) (mkVersion 2024 10 0) = true
  /\ BreakingChangesDB._parse_version "2024.9.101"
     = Some (mkVersion 2024 9 101)
  /\ BackupAnalyzer.version_diff
       (BackupAnalyzer.compare_versions "2024.9.101" "2024.10.0")
     = Some "older".
Proof. repeat split. Qed.

(** C6, amended: for version triples whose month and patch lie between 0
    and 99 the range test of the store is the half-open lexicographic
    interval [from < v <= to]; [find_breaking_changes] from "2024.3" to
    "2024.10" for [mqtt] over the curated records returns exactly the mqtt
    record of 2024.10.0, also when the store holds a further record of
    version "2024.3.0". *)
Theorem version_in_range_two_digit :
  (forall check from to : Version,
      two_digit check -> two_digit from -> two_digit to ->
      BreakingChangesDB._is_version_in_range check from to
      = Spec.in_half_open_range check from to)
  /\ BreakingChangesDB.find_breaking_changes curated_store
       "2024.3" "2024.10" ["mqtt"] = [mqtt_2024_10]
  /\ (forall r : BreakingChangesDB.Change,
        BreakingChangesDB.version r = Some "2024.3.0" ->
        BreakingChangesDB.find_breaking_changes
          (BreakingChangesDB.mkStore
             (Some (r :: BreakingChangesDB._get_curated_breaking_changes)) None)
          "2024.3" "2024.10" ["mqtt"] = [mqtt_2024_10]).
Proof.
  split; [|split].
  - intros c f t Hc Hf Ht.
    unfold BreakingChangesDB._is_version_in_range, Spec.in_half_open_range.
    now rewrite version_val_lt, version_val_le.
  - reflexivity.
  - intros r Hr.
    unfold BreakingChangesDB.find_breaking_changes.
    cbn [BreakingChangesDB.changes Py.get filter]. rewrite Hr.
    reflexivity.
Qed.

Lemma version_in_range_two_digit_witness :
  BreakingChangesDB._is_version_in_range
    (mkVersion 2024 10 0) (mkVersion 2024 3 0) (mkVersion 2024 10 0) = true
  /\ BreakingChangesDB.find_breaking_changes
       (BreakingChangesDB.mkStore
          (Some (BreakingChangesDB.curated "mqtt_2024_3" "2024.3.0" "mqtt"
                   "t" "d" "high" "u"
                 :: BreakingChangesDB._get_curated_breaking_changes)) None)
       "2024.3" "2024.10" ["mqtt"] = [mqtt_2024_10].
Proof.
  split.
  - rewrite (proj1 version_in_range_two_digit);
      unfold two_digit; simpl; try lia. reflexivity.
  - apply (proj2 (proj2 version_in_range_two_digit)). reflexivity.
Defined.

(** ** Risk assessment *)

Section AssessRisk.

Lemma fold_left_weights (l : list BreakingChangesDB.Change) (acc : Z) :
  fold_left (fun a c => a + BreakingChangesDB.weight c) l acc
  = acc + Spec.sum_of_weights l.
Proof.
  revert acc. induction l as [|c l IH]; intros acc; simpl.
  - lia.
  - rewrite IH. unfold Spec.sum_of_weights. simpl. lia.
Qed.

(** What [assess_risk] returns on every list: the score and the level
    follow the weights and thresholds; the count is there for a list
    that is not empty. *)
Lemma assess_risk_result (l : list BreakingChangesDB.Change) :
  BreakingChangesDB.score (BreakingChangesDB.assess_risk l)
  = Spec.sum_of_weights l
  /\ BreakingChangesDB.level (BreakingChangesDB.assess_risk l)
     = Spec.level_of_score (Spec.sum_of_weights l)
  /\ BreakingChangesDB.change_count (BreakingChangesDB.assess_risk l)
     = match l with [] => None | _ :: _ => Some (List.length l) end.
Proof.
  destruct l as [|c l]; [repeat split|].
  unfold BreakingChangesDB.assess_risk.
  rewrite fold_left_weights, Z.add_0_l.
  unfold Spec.level_of_score.
  destruct (Spec.sum_of_weights (c :: l) <=? 2);
    [|destruct (Spec.sum_of_weights (c :: l) <=? 6)]; repeat split.
Qed.

End AssessRisk.

(** C8 at the empty list: score 0 and level low, as claimed, but the
    dictionary returned has no [change_count], where the claim has 0. *)
Theorem assess_risk_empty_no_change_count :
  BreakingChangesDB.score (BreakingChangesDB.assess_risk []) = 0
  /\ BreakingChangesDB.level (BreakingChangesDB.assess_risk []) = "low"
  /\ BreakingChangesDB.change_count (BreakingChangesDB.assess_risk []) = None
  /\ BreakingChangesDB.change_count
       (BreakingChangesDB.assess_risk [mqtt_2024_10]) = Some 1%nat.
Proof. repeat split. Qed.

(** ** Updating the store *)

Section UpdateDatabase.

Import BreakingChangesDB.

Lemma id_eqb_eq (a b : option string) : id_eqb a b = true <-> a = b.
Proof.
  destruct a as [x|], b as [y|]; simpl; split; intros H;
    try discriminate; try reflexivity.
  - apply String.eqb_eq in H. now subst.
  - injection H as ->. apply String.eqb_refl.
Qed.

Lemma id_present_In (c : Change) (l : list Change) :
  id_present c l = true <-> In (id c) (map id l).
Proof.
  unfold id_present. rewrite existsb_exists, in_map_iff.
  split; intros [x [H1 H2]]; exists x.
  - split; [now apply id_eqb_eq|exact H1].
  - split; [exact H2|now apply id_eqb_eq].
Qed.

(** The loop only appends. *)
Lemma add_new_changes_appends (new existing : list Change) :
  exists added, add_new_changes new existing = (existing ++ added)%list.
Proof.
  revert existing. induction new as [|c new IH]; intros existing.
  - exists []. now rewrite app_nil_r.
  - unfold add_new_changes in *. simpl.
    destruct (id_present c existing).
    + apply IH.
    + destruct (IH (existing ++ [c])%list) as [added H].
      exists (c :: added). now rewrite H, <- app_assoc.
Qed.

Lemma add_new_changes_keeps (new existing : list Change) (c : Change) :
  id_present c existing = true ->
  id_present c (add_new_changes new existing) = true.
Proof.
  intros H. destruct (add_new_changes_appends new existing) as [added ->].
  unfold id_present in *. rewrite existsb_app, H. reflexivity.
Qed.

(** After the loop every fetched id is in the store. *)
Lemma add_new_changes_covers (new existing : list Change) (c : Change) :
  In c new -> id_present c (add_new_changes new existing) = true.
Proof.
  revert existing. induction new as [|d new IH]; intros existing Hin.
  - destruct Hin.
  - unfold add_new_changes. simpl. fold (add_new_changes new).
    destruct Hin as [<-|Hin].
    + destruct (id_present d existing) eqn:E.
      * now apply add_new_changes_keeps.
      * apply add_new_changes_keeps. unfold id_present.
        rewrite existsb_app. simpl.
        rewrite (proj2 (id_eqb_eq (id d) (id d)) eq_refl).
        now rewrite orb_true_r.
    + destruct (id_present d existing); now apply IH.
Qed.

(** When every fetched id is in the store the loop changes nothing. *)
Lemma add_new_changes_nothing_new (new existing : list Change) :
  (forall c, In c new -> id_present c existing = true) ->
  add_new_changes new existing = existing.
Proof.
  induction new as [|d new IH]; intros H; [reflexivity|].
  unfold add_new_changes. simpl. fold (add_new_changes new).
  rewrite (H d (or_introl eq_refl)).
  apply IH. intros c Hc. apply H. now right.
Qed.

Lemma add_new_changes_idempotent (new existing : list Change) :
  add_new_changes new (add_new_changes new existing)
  = add_new_changes new existing.
Proof.
  apply add_new_changes_nothing_new. intros c Hc.
  now apply add_new_changes_covers.
Qed.

(** The loop keeps the ids distinct. *)
Lemma add_new_changes_NoDup (new existing : list Change) :
  NoDup (map id existing) -> NoDup (map id (add_new_changes new existing)).
Proof.
  revert existing. induction new as [|d new IH]; intros existing H.
  - exact H.
  - unfold add_new_changes. simpl. fold (add_new_changes new).
    destruct (id_present d existing) eqn:E; [now apply IH|].
    apply IH. rewrite map_app. simpl.
    apply NoDup_app; [exact H|repeat constructor; intros []|].
    intros x Hx [<-|[]].
    apply id_present_In in Hx. congruence.
Qed.

End UpdateDatabase.

(** C4, as stated, fails: on the curated store a second update finds
    every fetched id present, appends nothing, and returns true. *)
Lemma update_database_true_without_new_record :
  forallb
    (fun c => BreakingChangesDB.id_present c
                (Py.get (BreakingChangesDB.changes curated_store) []))
    BreakingChangesDB._fetch_breaking_changes = true
  /\ BreakingChangesDB.changes
       (fst (BreakingChangesDB.update_database
               BreakingChangesDB._fetch_breaking_changes timestamp curated_store))
     = BreakingChangesDB.changes curated_store
  /\ snd (BreakingChangesDB.update_database
            BreakingChangesDB._fetch_breaking_changes timestamp curated_store)
     = true.
Proof. repeat split. Qed.

(** C4, amended: [update_database] returns true exactly when the fetched
    list is not empty, whether or not a record was appended; when every
    fetched id is already present and the list is not empty it returns
    true and leaves the records as they were. *)
Theorem update_database_true_iff_fetched
    (fetched : list BreakingChangesDB.Change) (now : string)
    (db : BreakingChangesDB.Store) :
  (snd (BreakingChangesDB.update_database fetched now db) = true
   <-> fetched <> [])
  /\ ((forall c, In c fetched ->
         BreakingChangesDB.id_present c
           (Py.get (BreakingChangesDB.changes db) []) = true) ->
      fetched <> [] ->
      snd (BreakingChangesDB.update_database fetched now db) = true
      /\ BreakingChangesDB.changes
           (fst (BreakingChangesDB.update_database fetched now db))
         = Some (Py.get (BreakingChangesDB.changes db) [])).
Proof.
  split.
  - destruct fetched; simpl; split; intros H; congruence.
  - intros Hall Hne. destruct fetched as [|c l]; [congruence|].
    split; [reflexivity|].
    unfold BreakingChangesDB.update_database.
    cbn [fst BreakingChangesDB.changes].
    now rewrite add_new_changes_nothing_new.
Qed.

Lemma update_database_true_iff_fetched_witness :
  snd (BreakingChangesDB.update_database
         BreakingChangesDB._fetch_breaking_changes timestamp curated_store)
  = true
  /\ BreakingChangesDB.changes
       (fst (BreakingChangesDB.update_database
               BreakingChangesDB._fetch_breaking_changes timestamp curated_store))
     = Some BreakingChangesDB._get_curated_breaking_changes.
Proof.
  apply (proj2 (update_database_true_iff_fetched
                  BreakingChangesDB._fetch_breaking_changes timestamp
                  curated_store)).
  - intros c Hc. simpl in Hc.
    repeat (destruct Hc as [<-|Hc]; [reflexivity|]). destruct Hc.
  - discriminate.
Defined.

(** C5: a second update with the same fetched records leaves the record
    collection of the first one as it is, so its size too; an update only
    appends, and the records it appends have ids that were not in the
    store, so ids that were distinct stay distinct. *)
Theorem update_database_idempotent
    (fetched : list BreakingChangesDB.Change) (now1 now2 : string)
    (db : BreakingChangesDB.Store) :
  BreakingChangesDB.changes
    (fst (BreakingChangesDB.update_database fetched now2
            (fst (BreakingChangesDB.update_database fetched now1 db))))
  = BreakingChangesDB.changes
      (fst (BreakingChangesDB.update_database fetched now1 db))
  /\ List.length
       (Py.get (BreakingChangesDB.changes
          (fst (BreakingChangesDB.update_database fetched now2
                  (fst (BreakingChangesDB.update_database fetched now1 db)))))
          [])
     = List.length
         (Py.get (BreakingChangesDB.changes
            (fst (BreakingChangesDB.update_database fetched now1 db))) [])
  /\ (exists added,
        Py.get (BreakingChangesDB.changes
          (fst (BreakingChangesDB.update_database fetched now1 db))) []
        = (Py.get (BreakingChangesDB.changes db) [] ++ added)%list)
  /\ (NoDup (map BreakingChangesDB.id
               (Py.get (BreakingChangesDB.changes db) [])) ->
      NoDup (map BreakingChangesDB.id
               (Py.get (BreakingChangesDB.changes
                  (fst (BreakingChangesDB.update_database fetched now1 db)))
                  []))).
Proof.
  assert (E : BreakingChangesDB.changes
    (fst (BreakingChangesDB.update_database fetched now2
            (fst (BreakingChangesDB.update_database fetched now1 db))))
  = BreakingChangesDB.changes
      (fst (BreakingChangesDB.update_database fetched now1 db))).
  { destruct fetched as [|c l]; [reflexivity|].
    unfold BreakingChangesDB.update_database.
    cbn [fst BreakingChangesDB.changes Py.get].
    now rewrite add_new_changes_idempotent. }
  split; [exact E|split; [now rewrite E|split]].
  { destruct fetched as [|c l].
    - exists []. now rewrite app_nil_r.
    - apply add_new_changes_appends. }
  intros H. destruct fetched as [|c l]; [exact H|].
  unfold BreakingChangesDB.update_database.
  cbn [fst BreakingChangesDB.changes Py.get].
  now apply add_new_changes_NoDup.
Qed.

Lemma update_database_idempotent_witness :
  NoDup (map BreakingChangesDB.id
           (Py.get (BreakingChangesDB.changes curated_store) [])).
Proof.
  apply (proj2 (proj2 (proj2 (update_database_idempotent
                         BreakingChangesDB._fetch_breaking_changes
                         timestamp timestamp
                         (BreakingChangesDB._load_database
                            BreakingChangesDB.Missing))))).
  simpl. constructor.
Defined.

(** ** Manifest extraction *)

Section ExtractManifest.

Import BackupAnalyzer.

Lemma scan_members_passed_over (pre rest : list TarInfo) :
  forallb passed_over pre = true ->
  scan_members (pre ++ rest) = scan_members rest.
Proof.
  induction pre as [|m pre IH]; intros H; [reflexivity|].
  simpl in H. apply andb_true_iff in H as [Hm Hpre].
  simpl. unfold passed_over in Hm.
  destruct (is_manifest_name m); [|now apply IH].
  destruct (extractfile m); [discriminate Hm|now apply IH].
Qed.

Lemma scan_members_no_manifest (members : list TarInfo) :
  existsb is_manifest_name members = false ->
  scan_members members = Py.Return None.
Proof.
  induction members as [|m l IH]; intros H; [reflexivity|].
  simpl in H. apply orb_false_iff in H as [Hm Hl].
  simpl. rewrite Hm. now apply IH.
Qed.

End ExtractManifest.

(** C2, as stated, fails: an archive without a manifest entry and an
    archive whose manifest entry is not JSON give the same failure, and
    [validate_backup] the same error report. *)
Lemma analyze_backup_same_failure :
  BackupAnalyzer.analyze_backup archive_no_manifest
  = BackupAnalyzer.Failure "Could not extract manifest from backup file"
  /\ BackupAnalyzer.analyze_backup archive_bad_json
     = BackupAnalyzer.Failure "Could not extract manifest from backup file"
  /\ validate (supervisor_of (Py.Return archive_no_manifest) "2024.10.1")
       curated_store
     = validate (supervisor_of (Py.Return archive_bad_json) "2024.10.1")
         curated_store.
Proof. repeat split. Qed.

(** C2, amended: when the archive opens and no entry matches
    manifest.json, and when the first matching entry with a file object is
    malformed JSON, [analyze_backup] returns one and the same failure, with
    the message "Could not extract manifest from backup file". *)
Theorem analyze_backup_failures_coincide
    (members pre post : list BackupAnalyzer.TarInfo) (entry msg : string) :
  existsb BackupAnalyzer.is_manifest_name members = false ->
  forallb passed_over pre = true ->
  BackupAnalyzer.is_manifest_name
    (BackupAnalyzer.mkTarInfo entry (Some (BackupAnalyzer.JSONDecodeError msg)))
  = true ->
  BackupAnalyzer.analyze_backup (BackupAnalyzer.Tar members)
  = BackupAnalyzer.Failure "Could not extract manifest from backup file"
  /\ BackupAnalyzer.analyze_backup
       (BackupAnalyzer.Tar
          (pre ++ BackupAnalyzer.mkTarInfo entry
                    (Some (BackupAnalyzer.JSONDecodeError msg)) :: post))
     = BackupAnalyzer.Failure "Could not extract manifest from backup file".
Proof.
  intros Hnone Hpre Hname. split.
  - unfold BackupAnalyzer.analyze_backup, BackupAnalyzer._extract_manifest.
    now rewrite scan_members_no_manifest.
  - unfold BackupAnalyzer.analyze_backup, BackupAnalyzer._extract_manifest.
    rewrite scan_members_passed_over by exact Hpre.
    cbn [BackupAnalyzer.scan_members]. rewrite Hname. reflexivity.
Qed.

Lemma analyze_backup_failures_coincide_witness :
  BackupAnalyzer.analyze_backup archive_no_manifest
  = BackupAnalyzer.analyze_backup archive_bad_json.
Proof.
  destruct (analyze_backup_failures_coincide
              [ BackupAnalyzer.mkTarInfo "./homeassistant.tar.gz" None;
                BackupAnalyzer.mkTarInfo "./backup.json"
                  (Some (BackupAnalyzer.Json manifest_zigbee)) ]
              [ BackupAnalyzer.mkTarInfo "./homeassistant.tar.gz" None ]
              []
              "./manifest.json"
              "Expecting value: line 1 column 1 (char 0)"
              eq_refl eq_refl eq_refl) as [H1 H2].
  exact (eq_trans H1 (eq_sym H2)).
Defined.

(** ** The validation report *)

Section ValidateBackup.

Import BackupManager.

(** The warning about the age of the backup is never produced: when the
    versions parse, [compatible] is false only for a newer backup, and
    when they do not parse there is no [total_months_diff]. *)
Lemma version_warning_unreachable (backup_version current_version : string) :
  snd (version_findings
         (BackupAnalyzer.compare_versions backup_version current_version)
         backup_version current_version) = [].
Proof.
  unfold version_findings, BackupAnalyzer.compare_versions.
  destruct (BackupAnalyzer._parse_version backup_version) as [b|];
    [destruct (BackupAnalyzer._parse_version current_version) as [c|]|];
    [|reflexivity..].
  cbn [BackupAnalyzer.compatible BackupAnalyzer.version_diff
       BackupAnalyzer.total_months_diff].
  repeat match goal with
         | |- context [if ?x <? ?y then _ else _] => destruct (x <? y)
         | |- context [if ?x >? ?y then _ else _] => destruct (x >? y)
         end; reflexivity.
Qed.

Lemma change_findings_warnings
    (l : List.list BreakingChangesDB.Change)
    (acc : List.list Finding * List.list Finding) :
  Forall (fun w => finding_type w = "breaking_change") (snd acc) ->
  Forall (fun w => finding_type w = "breaking_change")
    (snd (change_findings l acc)).
Proof.
  revert acc. induction l as [|c l IH]; intros [i w] H; [exact H|].
  unfold change_findings. simpl. fold (change_findings l).
  destruct (String.eqb _ "high"); apply IH; simpl; [exact H|].
  apply Forall_app. split; [exact H|]. now repeat constructor.
Qed.

(** So no report carries a warning of type "version". *)
Lemma no_version_warning_in_any_report
    (api : SupervisorAPI) (db : BreakingChangesDB.Store)
    (format_size : Z -> string) (utcnow backup_id : string) (v : Validation) :
  validate_backup api db format_size utcnow backup_id = Validated v ->
  Forall (fun w => finding_type w = "breaking_change") (warnings v).
Proof.
  unfold validate_backup, validate_backup_body.
  destruct (download_backup api backup_id) as [d|e]; [|discriminate].
  cbn [Py.bind].
  destruct (BackupAnalyzer.analyze_backup d) as [msg|a]; [discriminate|].
  destruct (get_homeassistant_info api) as [info|e]; [|discriminate].
  cbn [Py.bind].
  pose proof (change_findings_warnings
    (BreakingChangesDB.find_breaking_changes db
       (BackupAnalyzer.homeassistant_version a)
       (Py.get (version (Py.get (data info) (mkCoreInfo None))) "Unknown")
       (BackupAnalyzer.integrations a))
    (version_findings
       (BackupAnalyzer.compare_versions
          (BackupAnalyzer.homeassistant_version a)
          (Py.get (version (Py.get (data info) (mkCoreInfo None))) "Unknown"))
       (BackupAnalyzer.homeassistant_version a)
       (Py.get (version (Py.get (data info) (mkCoreInfo None))) "Unknown")))
    as Hw.
  rewrite version_warning_unreachable in Hw. specialize (Hw (Forall_nil _)).
  destruct (change_findings _ _) as [issues ws].
  destruct (overall_status _ _ _) as [st rl].
  cbn [Py.try_except]. intros H.
  pose proof (f_equal (fun r => match r with
                                | Validated x => x
                                | Error _ => v
                                end) H) as Hv.
  cbv beta iota in Hv. subst v. exact Hw.
Qed.

(** The three statuses of a report that is not an error report. *)
Lemma overall_status_not_error issues warnings risk_assessment :
  fst (overall_status issues warnings risk_assessment) <> "error".
Proof.
  unfold overall_status.
  destruct (negb (is_empty issues)); [discriminate|].
  destruct (String.eqb _ "high"); [discriminate|].
  destruct (_ || _); discriminate.
Qed.

End ValidateBackup.

(** C3 at a backup of 2023.1.0 on a system at 2024.10.1: the comparison
    gives "older", compatible, 21 months apart, and the report has no
    warning at all, where the claim has one warning of type version. *)
Theorem old_backup_has_no_version_warning :
  BackupAnalyzer.version_diff
    (BackupAnalyzer.compare_versions "2023.1.0" "2024.10.1") = Some "older"
  /\ BackupAnalyzer.compatible
       (BackupAnalyzer.compare_versions "2023.1.0" "2024.10.1") = true
  /\ BackupAnalyzer.total_months_diff
       (BackupAnalyzer.compare_versions "2023.1.0" "2024.10.1") = Some 21
  /\ exists v, report_old = BackupManager.Validated v
               /\ BackupManager.warnings v = []
               /\ BackupManager.issues v = []
               /\ BackupManager.v_status v = "compatible".
Proof.
  repeat split. eexists. repeat split.
Qed.

(** C9: [validate_backup] returns a report on every input.  An exception
    raised in the body of its [try] statement becomes the error report
    with the exception's text; when the download raises, the analysis
    fails or the request for the running version raises, the report has
    status "error", risk level "unknown" and the text of that failure;
    otherwise it is a full report, whose status is not "error". *)
Theorem validate_backup_never_raises
    (api : BackupManager.SupervisorAPI) (db : BreakingChangesDB.Store)
    (format_size : Z -> string) (utcnow backup_id : string) :
  (forall e : Py.exn,
      BackupManager.validate_backup_body api db format_size utcnow backup_id
      = Py.Raise e ->
      BackupManager.validate_backup api db format_size utcnow backup_id
      = BackupManager.error_report utcnow backup_id (Py.str_exn e))
  /\ match first_failure api backup_id with
     | Some text =>
         BackupManager.validate_backup api db format_size utcnow backup_id
         = BackupManager.error_report utcnow backup_id text
         /\ BackupManager.status
              (BackupManager.validate_backup api db format_size utcnow backup_id)
            = "error"
         /\ BackupManager.risk_level
              (BackupManager.validate_backup api db format_size utcnow backup_id)
            = "unknown"
         /\ BackupManager.error
              (BackupManager.validate_backup api db format_size utcnow backup_id)
            = Some text
     | None =>
         exists v : BackupManager.Validation,
           BackupManager.validate_backup api db format_size utcnow backup_id
           = BackupManager.Validated v
           /\ BackupManager.v_status v <> "error"
     end.
Proof.
  split.
  - intros e H. unfold BackupManager.validate_backup. now rewrite H.
  - unfold first_failure, BackupManager.validate_backup,
      BackupManager.validate_backup_body.
    destruct (BackupManager.download_backup api backup_id) as [d|e];
      [|repeat split].
    cbn [Py.bind].
    destruct (BackupAnalyzer.analyze_backup d) as [msg|a]; [repeat split|].
    destruct (BackupManager.get_homeassistant_info api) as [info|e];
      [|repeat split].
    cbn [Py.bind].
    destruct (BackupManager.change_findings _ _) as [issues warnings].
    pose proof (overall_status_not_error issues warnings
      (BreakingChangesDB.assess_risk
         (BreakingChangesDB.find_breaking_changes db
            (BackupAnalyzer.homeassistant_version a)
            (Py.get (BackupManager.version
               (Py.get (BackupManager.data info) (BackupManager.mkCoreInfo None)))
               "Unknown")
            (BackupAnalyzer.integrations a)))) as Hs.
    destruct (BackupManager.overall_status _ _ _) as [st rl].
    eexists. split; [reflexivity|exact Hs].
Qed.

Lemma validate_backup_never_raises_witness :
  validate (supervisor_of (Py.Raise (Py.Exception "503 Server Error")) "2024.10.1")
    curated_store
  = BackupManager.error_report timestamp "a1b2c3d4" "503 Server Error".
Proof.
  apply (proj1 (validate_backup_never_raises
                  (supervisor_of (Py.Raise (Py.Exception "503 Server Error"))
                     "2024.10.1")
                  curated_store format_size timestamp "a1b2c3d4")
           (Py.Exception "503 Server Error")).
  reflexivity.
Defined.



(** ** End to end *)

(** C1, as stated, fails: [zha] is not among the integrations of the
    backup, so the zha record is not matched, and the report of the run
    is not "incompatible". *)
Lemma end_to_end_not_incompatible :
  ~ (exists v,
        report_zigbee = BackupManager.Validated v
        /\ In "mqtt" (BackupManager.list (BackupManager.integrations v))
        /\ In mqtt_2024_10 (BackupManager.changes (BackupManager.breaking_changes v))
        /\ In zha_2024_9 (BackupManager.changes (BackupManager.breaking_changes v))
        /\ ~ In esphome_2024_8
               (BackupManager.changes (BackupManager.breaking_changes v))
        /\ BackupManager.v_status v = "incompatible"
        /\ BackupManager.v_risk_level v = "high").
Proof.
  intros [v [Hv [_ [_ [_ [_ [Hs _]]]]]]].
  vm_compute in Hv.
  pose proof (f_equal BackupManager.status Hv) as H.
  cbn [BackupManager.status BackupManager.v_status] in H.
  rewrite Hs in H. discriminate H.
Qed.

(** C1, amended: for a backup whose manifest has homeassistant "2024.5.0",
    the single addon zigbee2mqtt and no list of integrations of its own,
    on a system at "2024.10.1" with the curated records in the store, the
    integrations are default_config, homeassistant, mqtt and system_health,
    the only matched record is the one of mqtt at 2024.10.0 (zha, esphome
    and the others are not among the integrations), and the report has
    status "compatible_with_warnings" and risk level "medium". *)
Theorem end_to_end_zigbee
    (api : BackupManager.SupervisorAPI) (db : BreakingChangesDB.Store)
    (format_size : Z -> string) (utcnow backup_id : string)
    (backup_data : BackupAnalyzer.BackupData) (m : BackupAnalyzer.Manifest)
    (addon_name addon_version : option string) :
  BackupManager.download_backup api backup_id = Py.Return backup_data ->
  BackupAnalyzer._extract_manifest backup_data = Some m ->
  BackupAnalyzer.homeassistant m = Some "2024.5.0" ->
  BackupAnalyzer.addons m
  = Some [BackupAnalyzer.AddonDict addon_name (Some "zigbee2mqtt") addon_version] ->
  BackupAnalyzer.homeassistant_data m = None ->
  BackupManager.get_homeassistant_info api
  = Py.Return (BackupManager.mkInfo
                 (Some (BackupManager.mkCoreInfo (Some "2024.10.1")))) ->
  BreakingChangesDB.changes db
  = Some BreakingChangesDB._get_curated_breaking_changes ->
  exists v,
    BackupManager.validate_backup api db format_size utcnow backup_id
    = BackupManager.Validated v
    /\ BackupManager.list (BackupManager.integrations v)
       = ["default_config"; "homeassistant"; "mqtt"; "system_health"]
    /\ BackupManager.changes (BackupManager.breaking_changes v) = [mqtt_2024_10]
    /\ BackupManager.issues v = []
    /\ BackupManager.v_status v = "compatible_with_warnings"
    /\ BackupManager.v_risk_level v = "medium".
Proof.
  intros Hdl Hex Hha Had Hhd Hinfo Hdb.
  unfold BackupManager.validate_backup, BackupManager.validate_backup_body.
  rewrite Hdl. cbn [Py.bind].
  unfold BackupAnalyzer.analyze_backup. rewrite Hex.
  destruct m as [ha sv nm dt ty sz ad fo hd ok].
  cbn [BackupAnalyzer.homeassistant BackupAnalyzer.addons
       BackupAnalyzer.homeassistant_data] in Hha, Had, Hhd.
  subst ha ad hd.
  cbn [BackupAnalyzer.manifest_truth BackupAnalyzer.homeassistant
       BackupAnalyzer.is_some orb Py.try_except].
  rewrite Hinfo. cbn [Py.bind].
  destruct db as [ch lu]. cbn [BreakingChangesDB.changes] in Hdb. subst ch.
  eexists. split; [reflexivity|].
  repeat split.
Qed.

Lemma end_to_end_zigbee_witness :
  exists v,
    report_zigbee = BackupManager.Validated v
    /\ BackupManager.changes (BackupManager.breaking_changes v) = [mqtt_2024_10]
    /\ BackupManager.v_status v = "compatible_with_warnings"
    /\ BackupManager.v_risk_level v = "medium".
Proof.
  destruct (end_to_end_zigbee
              (supervisor_of (Py.Return (archive_of manifest_zigbee)) "2024.10.1")
              curated_store format_size timestamp "a1b2c3d4"
              (archive_of manifest_zigbee) manifest_zigbee None None
              eq_refl eq_refl eq_refl eq_refl eq_refl eq_refl eq_refl)
    as [v [Hv [_ [Hc [_ [Hs Hr]]]]]].
  exists v. repeat split; assumption.
Defined.

(** * Further properties *)

(** ** The integrations of a backup *)

Section Integrations.

Import BackupAnalyzer.

Lemma compare_lt_trans (x y z : string) :
  String.compare x y = Lt -> String.compare y z = Lt -> String.compare x z = Lt.
Proof.
  intros H1 H2.
  apply OrderedTypeEx.String_as_OT.cmp_lt.
  apply OrderedTypeEx.String_as_OT.cmp_lt in H1, H2.
  eapply OrderedTypeEx.String_as_OT.lt_trans; eassumption.
Qed.

Lemma compare_gt_lt (x y : string) :
  String.compare x y = Gt -> String.compare y x = Lt.
Proof.
  intros H. rewrite String.compare_antisym, H. reflexivity.
Qed.

Lemma insert_sorted_In (x z : string) (l : list string) :
  In z (Py.insert_sorted x l) <-> z = x \/ In z l.
Proof.
  induction l as [|y l IH]; simpl.
  - intuition.
  - destruct (String.compare x y) eqn:E; simpl.
    + apply String.compare_eq_iff in E. subst. intuition.
    + intuition.
    + rewrite IH. intuition.
Qed.

Lemma insert_sorted_increasing (x : string) (l : list string) :
  increasing l -> increasing (Py.insert_sorted x l).
Proof.
  unfold increasing.
  induction l as [|y l IH]; intros H; simpl.
  - repeat constructor.
  - inversion H as [|? ? Hl Hy]; subst.
    destruct (String.compare x y) eqn:E.
    + exact H.
    + constructor; [exact H|]. constructor; [exact E|].
      eapply Forall_impl; [|exact Hy].
      intros a Ha. now apply compare_lt_trans with y.
    + constructor; [now apply IH|].
      apply Forall_forall. intros z Hz.
      apply insert_sorted_In in Hz. destruct Hz as [->|Hz].
      * now apply compare_gt_lt.
      * rewrite Forall_forall in Hy. now apply Hy.
Qed.

Lemma sorted_set_aux_In (l acc : list string) (z : string) :
  In z (fold_left (fun acc x => Py.insert_sorted x acc) l acc)
  <-> In z l \/ In z acc.
Proof.
  revert acc. induction l as [|x l IH]; intros acc; simpl.
  - intuition.
  - rewrite IH, insert_sorted_In. intuition.
Qed.

Lemma sorted_set_In (l : list string) (z : string) :
  In z (Py.sorted_set l) <-> In z l.
Proof.
  unfold Py.sorted_set. rewrite sorted_set_aux_In. simpl. intuition.
Qed.

Lemma sorted_set_aux_increasing (l acc : list string) :
  increasing acc ->
  increasing (fold_left (fun acc x => Py.insert_sorted x acc) l acc).
Proof.
  revert acc. induction l as [|x l IH]; intros acc H; simpl.
  - exact H.
  - apply IH. now apply insert_sorted_increasing.
Qed.

Lemma sorted_set_increasing (l : list string) :
  increasing (Py.sorted_set l).
Proof. apply sorted_set_aux_increasing. constructor. Qed.

Lemma increasing_NoDup (l : list string) : increasing l -> NoDup l.
Proof.
  unfold increasing. induction 1 as [|x l Hl IH Hx]; constructor; [|exact IH].
  intros Hin. rewrite Forall_forall in Hx. specialize (Hx x Hin).
  assert (E : String.compare x x = Eq)
    by now apply OrderedTypeEx.String_as_OT.cmp_eq.
  congruence.
Qed.

Lemma contains_In (x : string) (l : list string) :
  Py.contains x l = true <-> In x l.
Proof.
  unfold Py.contains. rewrite existsb_exists. split.
  - intros [y [Hy E]]. apply String.eqb_eq in E. now subst.
  - intros H. exists x. split; [exact H|apply String.eqb_refl].
Qed.

Lemma add_core_In (cores acc : list string) (z : string) :
  In z (fold_left
          (fun acc core => if Py.contains core acc then acc
                           else (acc ++ [core])%list)
          cores acc)
  <-> In z acc \/ In z cores.
Proof.
  revert acc. induction cores as [|c cores IH]; intros acc; simpl.
  - intuition.
  - rewrite IH. destruct (Py.contains c acc) eqn:E.
    + apply contains_In in E. split.
      * intros [H|H]; [now left|now right; right].
      * intros [H|[<-|H]]; [now left|now left|now right].
    + rewrite in_app_iff. simpl. split.
      * intros [[H|[<-|[]]]|H]; [now left|now right; left|now right; right].
      * intros [H|[<-|H]]; [now left; left|now left; right; left|now right].
Qed.

Lemma infer_fold (l : list Addon) (acc : list string) :
  fold_left
    (fun acc addon =>
       match addon_integration_map (addon_slug addon) with
       | Some i => (acc ++ [i])%list
       | None => acc
       end) l acc
  = (acc ++ flat_map
              (fun addon =>
                 match addon_integration_map (addon_slug addon) with
                 | Some i => [i]
                 | None => []
                 end) l)%list.
Proof.
  revert acc. induction l as [|a l IH]; intros acc; simpl.
  - now rewrite app_nil_r.
  - rewrite IH. destruct (addon_integration_map (addon_slug a)); simpl.
    + now rewrite <- app_assoc.
    + reflexivity.
Qed.

Lemma extract_integrations_In (m : Manifest) (x : string) :
  In x (_extract_integrations m)
  <-> In x core_integrations
      \/ match declared_integrations m with
         | [] => In x (inferred_integrations m)
         | _ :: _ => In x (declared_integrations m)
         end.
Proof.
  unfold _extract_integrations. rewrite sorted_set_In, add_core_In.
  unfold declared_integrations, inferred_integrations.
  assert (E : match Py.get (homeassistant_data m) (HaDict None None) with
              | HaDict (Some l) _ => l
              | HaDict None (Some l) => l
              | HaDict None None => []
              | HaNotDict => []
              end
              = match homeassistant_data m with
                | Some (HaDict (Some l) _) => l
                | Some (HaDict None (Some l)) => l
                | _ => []
                end).
  { destruct (homeassistant_data m) as [[[l|] [l'|]|]|]; reflexivity. }
  rewrite E. clear E.
  destruct (match homeassistant_data m with
            | Some (HaDict (Some l) _) => l
            | Some (HaDict None (Some l)) => l
            | _ => []
            end) as [|d ds].
  - destruct (addons m) as [l|]; simpl Py.get.
    + rewrite infer_fold. simpl app. intuition.
    + simpl. intuition.
  - intuition.
Qed.

End Integrations.

(** X1: the integration list of a backup is strictly increasing (sorted,
    without repeats) and holds the three core integrations, whatever the
    manifest. *)
Theorem extract_integrations_sorted_with_core (m : BackupAnalyzer.Manifest) :
  increasing (BackupAnalyzer._extract_integrations m)
  /\ NoDup (BackupAnalyzer._extract_integrations m)
  /\ In "homeassistant" (BackupAnalyzer._extract_integrations m)
  /\ In "default_config" (BackupAnalyzer._extract_integrations m)
  /\ In "system_health" (BackupAnalyzer._extract_integrations m)
  /\ (3 <= List.length (BackupAnalyzer._extract_integrations m))%nat.
Proof.
  assert (Hinc : increasing (BackupAnalyzer._extract_integrations m))
    by apply sorted_set_increasing.
  assert (Hnd := increasing_NoDup _ Hinc).
  assert (Hcore : forall c, In c BackupAnalyzer.core_integrations ->
                            In c (BackupAnalyzer._extract_integrations m)).
  { intros c Hc. apply extract_integrations_In. now left. }
  split; [exact Hinc|]. split; [exact Hnd|].
  assert (H1 := Hcore "homeassistant" (or_introl eq_refl)).
  assert (H2 := Hcore "default_config" (or_intror (or_introl eq_refl))).
  assert (H3 := Hcore "system_health"
                  (or_intror (or_intror (or_introl eq_refl)))).
  repeat split; try assumption.
  apply (NoDup_incl_length (l := BackupAnalyzer.core_integrations)).
  - repeat constructor; simpl; intuition discriminate.
  - intros c Hc. now apply Hcore.
Qed.

(** X2: an integration is in the list exactly when it is a core
    integration, or is in the list the manifest declares, or, when the
    manifest declares none, is the integration of one of its addons. *)
Theorem extract_integrations_members
    (m : BackupAnalyzer.Manifest) (x : string) :
  In x (BackupAnalyzer._extract_integrations m)
  <-> In x BackupAnalyzer.core_integrations
      \/ match declared_integrations m with
         | [] => In x (inferred_integrations m)
         | _ :: _ => In x (declared_integrations m)
         end.
Proof. apply extract_integrations_In. Qed.

Lemma extract_integrations_members_witness :
  In "mqtt" (BackupAnalyzer._extract_integrations manifest_zigbee)
  /\ ~ In "zha" (BackupAnalyzer._extract_integrations manifest_zigbee).
Proof.
  split.
  - apply (proj2 (extract_integrations_members manifest_zigbee "mqtt")).
    right. simpl. now left.
  - intros H.
    apply (proj1 (extract_integrations_members manifest_zigbee "zha")) in H.
    simpl in H. intuition discriminate.
Defined.

(** X3: when [homeassistant_data] has an [integrations] key with an empty
    list, its [components] list is not consulted: the integrations are the
    core ones and those inferred from the addons. *)
Theorem empty_integrations_hide_components
    (m : BackupAnalyzer.Manifest) (components : list string) (x : string) :
  BackupAnalyzer.homeassistant_data m
  = Some (BackupAnalyzer.HaDict (Some []) (Some components)) ->
  (In x (BackupAnalyzer._extract_integrations m)
   <-> In x BackupAnalyzer.core_integrations \/ In x (inferred_integrations m)).
Proof.
  intros H. rewrite extract_integrations_In.
  unfold declared_integrations. rewrite H. reflexivity.
Qed.

Lemma empty_integrations_hide_components_witness :
  ~ In "zha"
      (BackupAnalyzer._extract_integrations Cases.manifest_empty_integrations)
  /\ In "mqtt"
       (BackupAnalyzer._extract_integrations Cases.manifest_empty_integrations).
Proof.
  split.
  - intros H.
    apply (proj1 (empty_integrations_hide_components
                    Cases.manifest_empty_integrations ["zha"] "zha" eq_refl))
      in H.
    simpl in H. intuition discriminate.
  - apply (proj2 (empty_integrations_hide_components
                    Cases.manifest_empty_integrations ["zha"] "mqtt" eq_refl)).
    right. simpl. now left.
Defined.

(** ** Comparing versions *)

Section CompareVersions.

Import BackupAnalyzer.

Ltac split_order :=
  repeat match goal with
         | |- context [?a <? ?b] => destruct (Z.ltb_spec a b)
         | |- context [?a =? ?b] => destruct (Z.eqb_spec a b)
         end.

Lemma version_diff_lex (b c : Version) :
  (if year b <? year c then "older"
   else if year b >? year c then "newer"
   else if month b <? month c then "older"
   else if month b >? month c then "newer"
   else if patch b <? patch c then "older"
   else if patch b >? patch c then "newer"
   else "same")
  = (if Spec.version_ltb b c then "older"
     else if Spec.version_ltb c b then "newer"
     else "same").
Proof.
  unfold Spec.version_ltb. rewrite !Z.gtb_ltb.
  split_order; simpl; try reflexivity; lia.
Qed.

Lemma version_ltb_asym (b c : Version) :
  Spec.version_ltb b c = true -> Spec.version_ltb c b = false.
Proof.
  unfold Spec.version_ltb. split_order; simpl; intros Hlt;
    try reflexivity; try discriminate; lia.
Qed.

Lemma version_ltb_neither (b c : Version) :
  Spec.version_ltb b c = false -> Spec.version_ltb c b = false -> b = c.
Proof.
  destruct b as [y1 m1 p1], c as [y2 m2 p2].
  unfold Spec.version_ltb. simpl.
  split_order; simpl; intros Hbc Hcb; try discriminate; f_equal; lia.
Qed.

Lemma version_ltb_irrefl (b : Version) : Spec.version_ltb b b = false.
Proof.
  unfold Spec.version_ltb. rewrite !Z.ltb_irrefl, !Z.eqb_refl. reflexivity.
Qed.

Lemma compare_versions_parse_failure (backup_version current_version : string) :
  _parse_version backup_version = None
  \/ _parse_version current_version = None ->
  version_diff (compare_versions backup_version current_version) = None
  /\ compatible (compare_versions backup_version current_version) = false.
Proof.
  unfold compare_versions. intros [H|H]; rewrite H.
  - now split.
  - now destruct (_parse_version backup_version).
Qed.

End CompareVersions.

(** X4: when both versions parse, [compare_versions] orders them
    lexicographically by (year, month, patch): "older", "newer" or "same",
    "same" exactly for equal triples; the backup is compatible exactly
    when it is not newer; and the month distance is
    12 * |year difference| + |month difference|. *)
Theorem compare_versions_lexicographic
    (backup_version current_version : string) (b c : Version) :
  BackupAnalyzer._parse_version backup_version = Some b ->
  BackupAnalyzer._parse_version current_version = Some c ->
  BackupAnalyzer.version_diff
    (BackupAnalyzer.compare_versions backup_version current_version)
  = Some (if Spec.version_ltb b c then "older"
          else if Spec.version_ltb c b then "newer"
          else "same")
  /\ (BackupAnalyzer.version_diff
        (BackupAnalyzer.compare_versions backup_version current_version)
      = Some "same" <-> b = c)
  /\ BackupAnalyzer.compatible
       (BackupAnalyzer.compare_versions backup_version current_version)
     = negb (Spec.version_ltb c b)
  /\ BackupAnalyzer.total_months_diff
       (BackupAnalyzer.compare_versions backup_version current_version)
     = Some (12 * Z.abs (year c - year b) + Z.abs (month c - month b))
  /\ BackupAnalyzer.reason
       (BackupAnalyzer.compare_versions backup_version current_version)
     = None.
Proof.
  intros Hb Hc. unfold BackupAnalyzer.compare_versions. rewrite Hb, Hc.
  cbn [BackupAnalyzer.version_diff BackupAnalyzer.compatible
       BackupAnalyzer.total_months_diff BackupAnalyzer.reason].
  rewrite version_diff_lex.
  split; [reflexivity|]. split; [|split; [|split; [f_equal; lia|reflexivity]]].
  - split.
    + destruct (Spec.version_ltb b c) eqn:E1; [discriminate|].
      destruct (Spec.version_ltb c b) eqn:E2; [discriminate|].
      intros _. now apply version_ltb_neither.
    + intros ->. now rewrite version_ltb_irrefl.
  - destruct (Spec.version_ltb b c) eqn:E1.
    + now rewrite (version_ltb_asym _ _ E1).
    + now destruct (Spec.version_ltb c b).
Qed.

Lemma compare_versions_lexicographic_witness :
  BackupAnalyzer.version_diff
    (BackupAnalyzer.compare_versions "2024.12.3" "v2025.1") = Some "older"
  /\ BackupAnalyzer.total_months_diff
       (BackupAnalyzer.compare_versions "2024.12.3" "v2025.1") = Some 23.
Proof.
  destruct (compare_versions_lexicographic "2024.12.3" "v2025.1"
              (mkVersion 2024 12 3) (mkVersion 2025 1 0) eq_refl eq_refl)
    as [H1 [_ [_ [H2 _]]]].
  split; [exact H1|exact H2].
Defined.

(** X5: exchanging the two versions exchanges "older" and "newer", keeps
    "same", and keeps the three distances; a pair that does not parse
    does not parse in the other order either. *)
Theorem compare_versions_exchange (v1 v2 : string) :
  BackupAnalyzer.version_diff (BackupAnalyzer.compare_versions v2 v1)
  = option_map opposite
      (BackupAnalyzer.version_diff (BackupAnalyzer.compare_versions v1 v2))
  /\ BackupAnalyzer.year_diff (BackupAnalyzer.compare_versions v2 v1)
     = BackupAnalyzer.year_diff (BackupAnalyzer.compare_versions v1 v2)
  /\ BackupAnalyzer.month_diff (BackupAnalyzer.compare_versions v2 v1)
     = BackupAnalyzer.month_diff (BackupAnalyzer.compare_versions v1 v2)
  /\ BackupAnalyzer.total_months_diff (BackupAnalyzer.compare_versions v2 v1)
     = BackupAnalyzer.total_months_diff (BackupAnalyzer.compare_versions v1 v2)
  /\ BackupAnalyzer.reason (BackupAnalyzer.compare_versions v2 v1)
     = BackupAnalyzer.reason (BackupAnalyzer.compare_versions v1 v2).
Proof.
  unfold BackupAnalyzer.compare_versions.
  destruct (BackupAnalyzer._parse_version v1) as [a|],
    (BackupAnalyzer._parse_version v2) as [b|]; try (repeat split; fail).
  cbn [BackupAnalyzer.version_diff BackupAnalyzer.year_diff
       BackupAnalyzer.month_diff BackupAnalyzer.total_months_diff
       BackupAnalyzer.reason option_map].
  rewrite !version_diff_lex.
  split; [|repeat split; f_equal; lia].
  f_equal.
  destruct (Spec.version_ltb a b) eqn:E1.
  - now rewrite (version_ltb_asym _ _ E1).
  - now destruct (Spec.version_ltb b a).
Qed.

(** X6: the comparison has no [version_diff] exactly when one of the two
    strings does not parse; it is then not compatible, gives the reason
    "Could not parse version numbers" and no distance. *)
Theorem compare_versions_unparseable (backup_version current_version : string) :
  (BackupAnalyzer.version_diff
     (BackupAnalyzer.compare_versions backup_version current_version) = None
   <-> BackupAnalyzer._parse_version backup_version = None
       \/ BackupAnalyzer._parse_version current_version = None)
  /\ (BackupAnalyzer.version_diff
        (BackupAnalyzer.compare_versions backup_version current_version) = None ->
      BackupAnalyzer.compatible
        (BackupAnalyzer.compare_versions backup_version current_version) = false
      /\ BackupAnalyzer.reason
           (BackupAnalyzer.compare_versions backup_version current_version)
         = Some "Could not parse version numbers"
      /\ BackupAnalyzer.total_months_diff
           (BackupAnalyzer.compare_versions backup_version current_version)
         = None).
Proof.
  unfold BackupAnalyzer.compare_versions.
  destruct (BackupAnalyzer._parse_version backup_version) as [b|],
    (BackupAnalyzer._parse_version current_version) as [c|];
    cbn [BackupAnalyzer.version_diff BackupAnalyzer.compatible
         BackupAnalyzer.reason BackupAnalyzer.total_months_diff].
  - split; [split; [discriminate|intros [H|H]; discriminate]|discriminate].
  - split; [split; [now right|reflexivity]|repeat split].
  - split; [split; [now left|reflexivity]|repeat split].
  - split; [split; [now left|reflexivity]|repeat split].
Qed.

Lemma compare_versions_unparseable_witness :
  BackupAnalyzer.compatible
    (BackupAnalyzer.compare_versions "unknown" "2024.10.1") = false
  /\ BackupAnalyzer.reason
       (BackupAnalyzer.compare_versions "unknown" "2024.10.1")
     = Some "Could not parse version numbers".
Proof.
  destruct (proj2 (compare_versions_unparseable "unknown" "2024.10.1"))
    as [H1 [H2 _]].
  - apply (proj2 (proj1 (compare_versions_unparseable "unknown" "2024.10.1"))).
    left. reflexivity.
  - split; [exact H1|exact H2].
Defined.

(** ** Printing and parsing a version *)

Section RoundTrip.















Lemma chars_append (s t : string) :
  Py.chars (s ++ t) = (Py.chars s ++ Py.chars t)%list.
Proof. induction s; simpl; [reflexivity|]. now rewrite IHs. Qed.







End RoundTrip.


(** ** Segments after the third *)

Section Suffix.

Lemma split_aux_append (sep : ascii) (s t : string) (cur : list ascii) :
  Py.split_aux sep cur (s ++ String sep t)
  = (Py.split_aux sep cur s ++ Py.split_aux sep [] t)%list.
Proof.
  revert cur. induction s as [|a s IH]; intros cur; simpl.
  - now rewrite Ascii.eqb_refl.
  - destruct (Ascii.eqb a sep); simpl; now rewrite IH.
Qed.

Lemma lstrip_append (c : ascii) (s r : string) :
  Py.lstrip c s <> "" -> Py.lstrip c (s ++ r) = Py.lstrip c s ++ r.
Proof.
  induction s as [|a s IH]; simpl; intros H; [congruence|].
  destruct (Ascii.eqb a c); [now apply IH|reflexivity].
Qed.

Lemma segments_append (s t : string) :
  (2 <= List.length (segments s))%nat ->
  segments (s ++ "." ++ t) = (segments s ++ Py.split "." t)%list.
Proof.
  unfold segments. intros H.
  rewrite lstrip_append.
  - apply split_aux_append.
  - intros E. rewrite E in H. simpl in H. lia.
Qed.

End Suffix.

(** X30: a version with three segments or more parses the same when a dot
    and anything at all is appended: what follows the third segment is
    never looked at. *)
Theorem parse_version_ignores_suffix (s t : string) (v : Version) :
  BackupAnalyzer._parse_version s = Some v ->
  (3 <= List.length (segments s))%nat ->
  BackupAnalyzer._parse_version (s ++ "." ++ t) = Some v
  /\ BreakingChangesDB._parse_version (s ++ "." ++ t) = Some v.
Proof.
  intros Hv Hlen.
  assert (H : BackupAnalyzer._parse_version (s ++ "." ++ t) = Some v).
  { revert Hv. unfold BackupAnalyzer._parse_version.
    fold (segments s). fold (segments (s ++ "." ++ t)).
    rewrite segments_append by lia.
    rewrite length_app, !app_nth1 by lia.
    destruct (List.length (segments s)) as [|[|[|n]]]; try lia.
    cbn [Nat.ltb Nat.leb Nat.add]. tauto. }
  split; exact H.
Qed.

Lemma parse_version_ignores_suffix_witness :
  BackupAnalyzer._parse_version "2024.10.1.dev20241001"
  = Some (mkVersion 2024 10 1).
Proof.
  apply (proj1 (parse_version_ignores_suffix "2024.10.1" "dev20241001"
                  (mkVersion 2024 10 1) eq_refl
                  (le_n 3))).
Defined.

(** ** Queries on the store *)

Section FindBreakingChanges.

Import BreakingChangesDB.

(** The test of the loop of [find_breaking_changes]. *)
Lemma find_test_applies (f t : Version) (integrations : list string)
    (change : Change) :
  match _parse_version (Py.get (version change) "") with
  | None => false
  | Some change_parts =>
      if _is_version_in_range change_parts f t then
        Py.contains (Py.get (integration change) "") integrations
        || String.eqb (Py.get (integration change) "") "all"
      else false
  end = true
  <-> applies f t integrations change.
Proof.
  unfold applies, _is_version_in_range.
  destruct (_parse_version (Py.get (version change) "")) as [c|].
  - split.
    + intros H. exists c. split; [reflexivity|].
      destruct (version_val f <? version_val c) eqn:E1; [|discriminate].
      destruct (version_val c <=? version_val t) eqn:E2; [|discriminate].
      simpl in H. apply Z.ltb_lt in E1. apply Z.leb_le in E2.
      split; [lia|].
      apply orb_true_iff in H as [H|H].
      * left. now apply contains_In.
      * right. apply String.eqb_eq in H.
        destruct (integration change) as [i|]; simpl in H;
          [now subst|discriminate].
    + intros [c' [E [[H1 H2] H3]]]. injection E as <-.
      apply Z.ltb_lt in H1. apply Z.leb_le in H2. rewrite H1, H2. simpl.
      apply orb_true_iff. destruct H3 as [H3|H3].
      * left. now apply contains_In.
      * right. now rewrite H3.
  - split; [discriminate|]. intros [c [E _]]. discriminate.
Qed.

Lemma find_breaking_changes_parse_failure
    (db : Store) (from_version to_version : string)
    (integrations : list string) :
  _parse_version from_version = None \/ _parse_version to_version = None ->
  find_breaking_changes db from_version to_version integrations = [].
Proof.
  unfold find_breaking_changes. intros [H|H]; rewrite H; [reflexivity|].
  now destruct (_parse_version from_version).
Qed.

End FindBreakingChanges.

(** X7: when both bounds parse, [find_breaking_changes] returns exactly
    the records of the store whose version parses and lies in
    [from < v <= to] by [year * 10000 + month * 100 + patch], and whose
    integration is one of those given or is "all"; it returns them in the
    order of the store. *)
Theorem find_breaking_changes_exact
    (db : BreakingChangesDB.Store) (from_version to_version : string)
    (integrations : list string) (f t : Version) :
  BreakingChangesDB._parse_version from_version = Some f ->
  BreakingChangesDB._parse_version to_version = Some t ->
  (forall change,
      In change (BreakingChangesDB.find_breaking_changes db
                   from_version to_version integrations)
      <-> In change (Py.get (BreakingChangesDB.changes db) [])
          /\ applies f t integrations change)
  /\ (forall more,
        BreakingChangesDB.find_breaking_changes
          (BreakingChangesDB.mkStore
             (Some (Py.get (BreakingChangesDB.changes db) [] ++ more)%list)
             (BreakingChangesDB.last_update db))
          from_version to_version integrations
        = (BreakingChangesDB.find_breaking_changes db
             from_version to_version integrations
           ++ BreakingChangesDB.find_breaking_changes
                (BreakingChangesDB.mkStore (Some more) None)
                from_version to_version integrations)%list).
Proof.
  intros Hf Ht. unfold BreakingChangesDB.find_breaking_changes.
  rewrite Hf, Ht. split.
  - intros change. rewrite filter_In, find_test_applies. reflexivity.
  - intros more. cbn [BreakingChangesDB.changes Py.get]. apply filter_app.
Qed.

Lemma find_breaking_changes_exact_witness :
  In mqtt_2024_10
    (BreakingChangesDB.find_breaking_changes curated_store
       "2024.5.0" "2024.10.1" ["mqtt"]).
Proof.
  apply (proj1 (find_breaking_changes_exact curated_store
                  "2024.5.0" "2024.10.1" ["mqtt"]
                  (mkVersion 2024 5 0) (mkVersion 2024 10 1)
                  eq_refl eq_refl) mqtt_2024_10).
  split.
  - simpl. now left.
  - exists (mkVersion 2024 10 0). split; [reflexivity|].
    split; [vm_compute; split; [reflexivity|discriminate]|].
    left. simpl. now left.
Defined.

(** X8: [find_breaking_changes] returns nothing when a bound does not
    parse, and nothing when the target version is not after the starting
    one, so for a backup of the running version or of a later one. *)
Theorem find_breaking_changes_empty
    (db : BreakingChangesDB.Store) (from_version to_version : string)
    (integrations : list string) :
  (BreakingChangesDB._parse_version from_version = None
   \/ BreakingChangesDB._parse_version to_version = None ->
   BreakingChangesDB.find_breaking_changes db
     from_version to_version integrations = [])
  /\ (forall f t,
        BreakingChangesDB._parse_version from_version = Some f ->
        BreakingChangesDB._parse_version to_version = Some t ->
        BreakingChangesDB.version_val t <= BreakingChangesDB.version_val f ->
        BreakingChangesDB.find_breaking_changes db
          from_version to_version integrations = []).
Proof.
  split; [apply find_breaking_changes_parse_failure|].
  unfold BreakingChangesDB.find_breaking_changes.
  - intros f t Hf Ht Hle. rewrite Hf, Ht.
    match goal with |- ?l = [] => destruct l as [|c r] eqn:E end;
      [reflexivity|].
    assert (Hc : In c (c :: r)) by now left.
    rewrite <- E in Hc. apply filter_In in Hc as [_ Hc].
    apply find_test_applies in Hc as [v [_ [Hr _]]]. lia.
Qed.

Lemma find_breaking_changes_empty_witness :
  BreakingChangesDB.find_breaking_changes curated_store
    "2024.10.1" "2024.10.1" ["mqtt"; "zha"] = []
  /\ BreakingChangesDB.find_breaking_changes curated_store
       "unknown" "2024.10.1" ["mqtt"; "zha"] = [].
Proof.
  split.
  - apply (proj2 (find_breaking_changes_empty curated_store
                    "2024.10.1" "2024.10.1" ["mqtt"; "zha"])
             (mkVersion 2024 10 1) (mkVersion 2024 10 1) eq_refl eq_refl).
    vm_compute. discriminate.
  - apply (proj1 (find_breaking_changes_empty curated_store
                    "unknown" "2024.10.1" ["mqtt"; "zha"])).
    left. reflexivity.
Defined.

(** X9: more integrations never match fewer records: every record matched
    for a list of integrations is matched for any list that includes it. *)
Theorem find_breaking_changes_monotone
    (db : BreakingChangesDB.Store) (from_version to_version : string)
    (integrations integrations' : list string) :
  incl integrations integrations' ->
  incl (BreakingChangesDB.find_breaking_changes db
          from_version to_version integrations)
       (BreakingChangesDB.find_breaking_changes db
          from_version to_version integrations').
Proof.
  intros Hincl change.
  unfold BreakingChangesDB.find_breaking_changes.
  destruct (BreakingChangesDB._parse_version from_version) as [f|];
    [|intros []].
  destruct (BreakingChangesDB._parse_version to_version) as [t|];
    [|intros []].
  rewrite !filter_In, !find_test_applies.
  intros [Hin [c [Hc [Hr Hi]]]]. split; [exact Hin|].
  exists c. split; [exact Hc|]. split; [exact Hr|].
  destruct Hi as [Hi|Hi]; [left; now apply Hincl|now right].
Qed.

Lemma find_breaking_changes_monotone_witness :
  incl (BreakingChangesDB.find_breaking_changes curated_store
          "2024.5.0" "2024.10.1" ["mqtt"])
       (BreakingChangesDB.find_breaking_changes curated_store
          "2024.5.0" "2024.10.1" ["zha"; "mqtt"]).
Proof.
  apply (find_breaking_changes_monotone curated_store
           "2024.5.0" "2024.10.1" ["mqtt"] ["zha"; "mqtt"]).
  intros x [<-|[]]. simpl. now right; left.
Defined.

(** ** Updating the store, continued *)

Section UpdateMore.

Import BreakingChangesDB.

Lemma add_new_changes_from (new existing : list Change) (c : Change) :
  In c (add_new_changes new existing) -> In c existing \/ In c new.
Proof.
  revert existing. induction new as [|d new IH]; intros existing H.
  - now left.
  - unfold add_new_changes in H. simpl in H. fold (add_new_changes new) in H.
    destruct (id_present d existing).
    + destruct (IH _ H); [now left|now right; right].
    + destruct (IH _ H) as [H'|H']; [|now right; right].
      apply in_app_iff in H' as [H'|[<-|[]]]; [now left|now right; left].
Qed.

Lemma add_new_changes_appends_fetched (new existing : list Change) :
  exists added,
    add_new_changes new existing = (existing ++ added)%list
    /\ incl added new.
Proof.
  revert existing. induction new as [|c new IH]; intros existing.
  - exists []. split; [now rewrite app_nil_r|intros x []].
  - unfold add_new_changes in *. simpl.
    destruct (id_present c existing).
    + destruct (IH existing) as [added [H Hi]]. exists added.
      split; [exact H|]. intros x Hx. right. now apply Hi.
    + destruct (IH (existing ++ [c])%list) as [added [H Hi]].
      exists (c :: added). split; [now rewrite H, <- app_assoc|].
      intros x [<-|Hx]; [now left|right; now apply Hi].
Qed.

(** Fetched records with distinct ids, none of them in the store, are
    appended as they are. *)
Lemma add_new_changes_all_new (new existing : list Change) :
  NoDup (map id new) ->
  (forall c, In c new -> id_present c existing = false) ->
  add_new_changes new existing = (existing ++ new)%list.
Proof.
  revert existing. induction new as [|d new IH]; intros existing Hnd Hnew.
  - now rewrite app_nil_r.
  - unfold add_new_changes. simpl. fold (add_new_changes new).
    rewrite (Hnew d (or_introl eq_refl)).
    inversion Hnd as [|? ? Hd Hnd']; subst.
    rewrite IH; [now rewrite <- app_assoc|exact Hnd'|].
    intros c Hc. unfold id_present. rewrite existsb_app. simpl.
    rewrite orb_false_r.
    apply orb_false_iff. split.
    + apply Hnew. now right.
    + apply not_true_is_false. intros E. apply id_eqb_eq in E.
      apply Hd. rewrite E. now apply in_map.
Qed.

End UpdateMore.

(** X10: an update with a list that is not empty leaves every fetched id
    in the store, stores only records that were there or were fetched, and
    writes the new time stamp; an update with an empty list changes
    nothing. *)
Theorem update_database_contents
    (fetched : list BreakingChangesDB.Change) (now : string)
    (db : BreakingChangesDB.Store) :
  (fetched = [] ->
   BreakingChangesDB.update_database fetched now db = (db, false))
  /\ (fetched <> [] ->
      BreakingChangesDB.last_update
        (fst (BreakingChangesDB.update_database fetched now db)) = Some now
      /\ (forall c, In c fetched ->
            In (BreakingChangesDB.id c)
               (map BreakingChangesDB.id
                  (Py.get (BreakingChangesDB.changes
                     (fst (BreakingChangesDB.update_database fetched now db)))
                     [])))
      /\ (forall c,
            In c (Py.get (BreakingChangesDB.changes
                    (fst (BreakingChangesDB.update_database fetched now db)))
                    []) ->
            In c (Py.get (BreakingChangesDB.changes db) []) \/ In c fetched)).
Proof.
  split; [now intros ->|].
  intros Hne. destruct fetched as [|d l]; [congruence|].
  unfold BreakingChangesDB.update_database.
  cbn [fst BreakingChangesDB.last_update BreakingChangesDB.changes Py.get].
  split; [reflexivity|]. split.
  - intros c Hc. apply id_present_In. now apply add_new_changes_covers.
  - intros c Hc. now apply add_new_changes_from.
Qed.

Lemma update_database_contents_witness :
  BreakingChangesDB.last_update curated_store = Some timestamp
  /\ In (Some "zha_2024_9")
        (map BreakingChangesDB.id
           (Py.get (BreakingChangesDB.changes curated_store) [])).
Proof.
  destruct (proj2 (update_database_contents
                     BreakingChangesDB._fetch_breaking_changes timestamp
                     (BreakingChangesDB._load_database
                        BreakingChangesDB.Missing)))
    as [H1 [H2 _]].
  - discriminate.
  - split; [exact H1|]. apply (H2 zha_2024_9). simpl. now right; left.
Defined.

(** X11: when the fetched records have distinct ids and none of these is
    in the store, the update appends all of them, in the order fetched. *)
Theorem update_database_appends_all
    (fetched : list BreakingChangesDB.Change) (now : string)
    (db : BreakingChangesDB.Store) :
  fetched <> [] ->
  NoDup (map BreakingChangesDB.id fetched) ->
  (forall c, In c fetched ->
     ~ In (BreakingChangesDB.id c)
          (map BreakingChangesDB.id
             (Py.get (BreakingChangesDB.changes db) []))) ->
  BreakingChangesDB.changes
    (fst (BreakingChangesDB.update_database fetched now db))
  = Some (Py.get (BreakingChangesDB.changes db) [] ++ fetched)%list.
Proof.
  intros Hne Hnd Hnew. destruct fetched as [|d l]; [congruence|].
  unfold BreakingChangesDB.update_database.
  cbn [fst BreakingChangesDB.changes]. f_equal.
  apply add_new_changes_all_new; [exact Hnd|].
  intros c Hc. apply not_true_is_false. intros E.
  apply id_present_In in E. now apply (Hnew c Hc).
Qed.

Lemma update_database_appends_all_witness :
  BreakingChangesDB.changes curated_store
  = Some BreakingChangesDB._get_curated_breaking_changes.
Proof.
  apply (update_database_appends_all
           BreakingChangesDB._fetch_breaking_changes timestamp
           (BreakingChangesDB._load_database BreakingChangesDB.Missing)).
  - discriminate.
  - vm_compute. repeat constructor; simpl; intuition discriminate.
  - intros c _ [].
Defined.

(** X12: an update never loses a match: what [find_breaking_changes]
    returned before an update it returns after it, in the same order,
    followed by the matches among the appended records. *)
Theorem update_database_keeps_matches
    (fetched : list BreakingChangesDB.Change) (now : string)
    (db : BreakingChangesDB.Store) (from_version to_version : string)
    (integrations : list string) :
  exists added,
    BreakingChangesDB.find_breaking_changes
      (fst (BreakingChangesDB.update_database fetched now db))
      from_version to_version integrations
    = (BreakingChangesDB.find_breaking_changes db
         from_version to_version integrations
       ++ BreakingChangesDB.find_breaking_changes
            (BreakingChangesDB.mkStore (Some added) None)
            from_version to_version integrations)%list
    /\ incl added fetched.
Proof.
  destruct fetched as [|d l].
  - exists []. split; [|intros x []].
    unfold BreakingChangesDB.find_breaking_changes. simpl.
    destruct (BreakingChangesDB._parse_version from_version),
      (BreakingChangesDB._parse_version to_version);
      now rewrite ?app_nil_r.
  - destruct (add_new_changes_appends_fetched (d :: l)
                (Py.get (BreakingChangesDB.changes db) []))
      as [added [Ha Hi]].
    exists added. split.
    + unfold BreakingChangesDB.update_database,
        BreakingChangesDB.find_breaking_changes.
      cbn [fst BreakingChangesDB.changes Py.get].
      destruct (BreakingChangesDB._parse_version from_version);
        [|reflexivity].
      destruct (BreakingChangesDB._parse_version to_version);
        [|reflexivity].
      rewrite Ha. apply filter_app.
    + exact Hi.
Qed.

(** ** Risk assessment, continued *)

Section RiskMore.

Import BreakingChangesDB.

Lemma weight_range (c : Change) : 1 <= weight c <= 5.
Proof.
  unfold weight, severity_weights.
  destruct (severity c) as [s|]; simpl; [|lia].
  destruct (String.eqb s "low"); [simpl; lia|].
  destruct (String.eqb s "medium"); [simpl; lia|].
  destruct (String.eqb s "high"); simpl; lia.
Qed.

Lemma sum_of_weights_range (l : list Change) :
  Z.of_nat (List.length l) <= Spec.sum_of_weights l
  <= 5 * Z.of_nat (List.length l).
Proof.
  induction l as [|c l IH]; [simpl; lia|].
  unfold Spec.sum_of_weights in *.
  cbn [List.length fold_right]. pose proof (weight_range c). lia.
Qed.

Lemma sum_of_weights_app (l l' : list Change) :
  Spec.sum_of_weights (l ++ l')
  = Spec.sum_of_weights l + Spec.sum_of_weights l'.
Proof.
  unfold Spec.sum_of_weights.
  induction l as [|c l IH]; simpl; [reflexivity|]. rewrite IH. lia.
Qed.

Lemma level_rank_of_score (a b : Z) :
  a <= b ->
  level_rank (Spec.level_of_score a) <= level_rank (Spec.level_of_score b).
Proof.
  intros H. unfold Spec.level_of_score.
  destruct (Z.leb_spec a 2), (Z.leb_spec a 6), (Z.leb_spec b 2),
    (Z.leb_spec b 6); try lia; vm_compute; discriminate.
Qed.

End RiskMore.

(** X13: the score of [assess_risk] lies between the number of records and
    five times that number; one record alone is never assessed "high" and
    seven records always are; appending records lowers neither the score
    nor the level. *)
Theorem assess_risk_bounds
    (l l' : list BreakingChangesDB.Change) :
  Z.of_nat (List.length l)
  <= BreakingChangesDB.score (BreakingChangesDB.assess_risk l)
  <= 5 * Z.of_nat (List.length l)
  /\ ((List.length l <= 1)%nat ->
      BreakingChangesDB.level (BreakingChangesDB.assess_risk l) <> "high")
  /\ ((7 <= List.length l)%nat ->
      BreakingChangesDB.level (BreakingChangesDB.assess_risk l) = "high")
  /\ BreakingChangesDB.score (BreakingChangesDB.assess_risk l)
     <= BreakingChangesDB.score (BreakingChangesDB.assess_risk (l ++ l'))
  /\ level_rank (BreakingChangesDB.level (BreakingChangesDB.assess_risk l))
     <= level_rank
          (BreakingChangesDB.level (BreakingChangesDB.assess_risk (l ++ l'))).
Proof.
  destruct (assess_risk_result l) as [Hs [Hl _]].
  destruct (assess_risk_result (l ++ l')) as [Hs' [Hl' _]].
  rewrite Hs, Hl, Hs', Hl', sum_of_weights_app.
  pose proof (sum_of_weights_range l) as Hr.
  pose proof (sum_of_weights_range l') as Hr'.
  split; [exact Hr|].
  split; [|split; [|split; [lia|apply level_rank_of_score; lia]]].
  - intros Hlen. unfold Spec.level_of_score.
    destruct (Z.leb_spec (Spec.sum_of_weights l) 2); [discriminate|].
    destruct (Z.leb_spec (Spec.sum_of_weights l) 6); [discriminate|]. lia.
  - intros Hlen. unfold Spec.level_of_score.
    destruct (Z.leb_spec (Spec.sum_of_weights l) 2); [lia|].
    destruct (Z.leb_spec (Spec.sum_of_weights l) 6); [lia|reflexivity].
Qed.

Lemma assess_risk_bounds_witness :
  BreakingChangesDB.level (BreakingChangesDB.assess_risk [zha_2024_9])
  <> "high"
  /\ BreakingChangesDB.level
       (BreakingChangesDB.assess_risk
          BreakingChangesDB._get_curated_breaking_changes) = "high".
Proof.
  split.
  - apply (proj1 (proj2 (assess_risk_bounds [zha_2024_9] []))).
    simpl. lia.
  - apply (proj1 (proj2 (proj2 (assess_risk_bounds
                                   BreakingChangesDB._get_curated_breaking_changes
                                   [])))).
    simpl. lia.
Defined.

(** ** The validation report, continued *)

Section ReportShape.

Import BackupManager.

(** A full report, field by field. *)
Lemma validate_backup_inversion
    (api : SupervisorAPI) (db : BreakingChangesDB.Store)
    (format_size : Z -> string) (utcnow backup_id : string) (v : Validation) :
  validate_backup api db format_size utcnow backup_id = Validated v ->
  exists backup_data analysis info,
    download_backup api backup_id = Py.Return backup_data
    /\ BackupAnalyzer.analyze_backup backup_data
       = BackupAnalyzer.Success analysis
    /\ get_homeassistant_info api = Py.Return info
    /\ vi_backup_version (version_info v)
       = BackupAnalyzer.homeassistant_version analysis
    /\ vi_current_version (version_info v) = running_version info
    /\ vi_compatible (version_info v)
       = BackupAnalyzer.compatible
           (BackupAnalyzer.compare_versions
              (BackupAnalyzer.homeassistant_version analysis)
              (running_version info))
    /\ vi_version_diff (version_info v)
       = BackupAnalyzer.version_diff
           (BackupAnalyzer.compare_versions
              (BackupAnalyzer.homeassistant_version analysis)
              (running_version info))
    /\ changes (breaking_changes v)
       = BreakingChangesDB.find_breaking_changes db
           (BackupAnalyzer.homeassistant_version analysis)
           (running_version info) (BackupAnalyzer.integrations analysis)
    /\ changes_count (breaking_changes v)
       = List.length (changes (breaking_changes v))
    /\ risk_score (breaking_changes v)
       = BreakingChangesDB.score
           (BreakingChangesDB.assess_risk (changes (breaking_changes v)))
    /\ (issues v, warnings v)
       = change_findings (changes (breaking_changes v))
           (version_findings
              (BackupAnalyzer.compare_versions
                 (BackupAnalyzer.homeassistant_version analysis)
                 (running_version info))
              (BackupAnalyzer.homeassistant_version analysis)
              (running_version info))
    /\ (v_status v, v_risk_level v)
       = overall_status (issues v) (warnings v)
           (BreakingChangesDB.assess_risk (changes (breaking_changes v)))
    /\ recommendation v
       = _generate_recommendation (v_status v) (v_risk_level v)
           (issues v) (warnings v).
Proof.
  unfold validate_backup, validate_backup_body.
  destruct (download_backup api backup_id) as [d|e]; [|discriminate].
  cbn [Py.bind].
  destruct (BackupAnalyzer.analyze_backup d) as [msg|a] eqn:Ea;
    [discriminate|].
  destruct (get_homeassistant_info api) as [info|e]; [|discriminate].
  cbn [Py.bind]. fold (running_version info).
  destruct (change_findings _ _) as [iss ws] eqn:Ef.
  destruct (overall_status _ _ _) as [st rl] eqn:Es.
  cbn [Py.try_except]. intros H.
  pose proof (f_equal (fun r => match r with
                                | Validated x => x
                                | Error _ => v
                                end) H) as Hv.
  cbv beta iota in Hv. subst v. clear H.
  exists d, a, info.
  cbn [version_info vi_backup_version vi_current_version vi_compatible
       vi_version_diff breaking_changes changes changes_count risk_score
       issues warnings v_status v_risk_level recommendation].
  rewrite Ef, Es. repeat split. exact Ea.
Qed.

Lemma change_findings_partition
    (l : List.list BreakingChangesDB.Change)
    (acc : List.list Finding * List.list Finding) :
  change_findings l acc
  = ((fst acc ++ map finding_of (filter is_high l))%list,
     (snd acc ++ map finding_of (filter (fun c => negb (is_high c)) l))%list).
Proof.
  revert acc. induction l as [|c l IH]; intros [i w].
  - simpl. now rewrite !app_nil_r.
  - unfold change_findings. cbn [fold_left]. fold (change_findings l).
    fold (is_high c). fold (finding_of c).
    destruct (is_high c) eqn:E; rewrite IH; cbn [fst snd filter negb map];
      rewrite E; cbn [negb map]; now rewrite <- app_assoc.
Qed.

(** The findings of [version_findings]: an issue for a newer backup,
    and never a warning. *)
Lemma version_findings_cases (backup_version current_version : string) :
  snd (version_findings
         (BackupAnalyzer.compare_versions backup_version current_version)
         backup_version current_version) = []
  /\ (BackupAnalyzer.version_diff
        (BackupAnalyzer.compare_versions backup_version current_version)
      = Some "newer" ->
      exists message,
        fst (version_findings
               (BackupAnalyzer.compare_versions backup_version current_version)
               backup_version current_version)
        = [VersionFinding "high" message])
  /\ (BackupAnalyzer.version_diff
        (BackupAnalyzer.compare_versions backup_version current_version)
      <> Some "newer" ->
      fst (version_findings
             (BackupAnalyzer.compare_versions backup_version current_version)
             backup_version current_version) = []).
Proof.
  split; [apply version_warning_unreachable|].
  unfold version_findings, BackupAnalyzer.compare_versions.
  destruct (BackupAnalyzer._parse_version backup_version) as [b|];
    [destruct (BackupAnalyzer._parse_version current_version) as [c|]|];
    cbn [BackupAnalyzer.compatible BackupAnalyzer.version_diff
         BackupAnalyzer.total_months_diff];
    try (split; [discriminate|reflexivity]).
  rewrite version_diff_lex.
  destruct (Spec.version_ltb b c); [split; [discriminate|reflexivity]|].
  destruct (Spec.version_ltb c b).
  - split; [intros _; eexists; reflexivity|congruence].
  - split; [discriminate|reflexivity].
Qed.

End ReportShape.

Section ReportFacts.

Import BackupManager.

Lemma filter_both_nil {A : Type} (p : A -> bool) (l : List.list A) :
  filter p l = [] -> filter (fun x => negb (p x)) l = [] -> l = [].
Proof.
  destruct l as [|x l]; [reflexivity|]. simpl.
  destruct (p x); simpl; discriminate.
Qed.

Lemma finding_of_severity (c : BreakingChangesDB.Change) :
  finding_severity (finding_of c) = "high" <-> is_high c = true.
Proof. unfold finding_of, is_high. simpl. symmetry. apply String.eqb_eq. Qed.

End ReportFacts.

(** X14: in a full report the pair of status and risk level is one of
    (incompatible, high), (compatible_with_warnings, high),
    (compatible_with_warnings, medium) and (compatible, low); the status is
    "incompatible" exactly when there is an issue; a report that is
    "compatible" has no issue, no warning and no matched record; and the
    count of breaking changes is the length of their list. *)
Theorem report_status_and_risk
    (api : BackupManager.SupervisorAPI) (db : BreakingChangesDB.Store)
    (format_size : Z -> string) (utcnow backup_id : string)
    (v : BackupManager.Validation) :
  BackupManager.validate_backup api db format_size utcnow backup_id
  = BackupManager.Validated v ->
  In (BackupManager.v_status v, BackupManager.v_risk_level v)
     [("incompatible", "high"); ("compatible_with_warnings", "high");
      ("compatible_with_warnings", "medium"); ("compatible", "low")]
  /\ (BackupManager.v_status v = "incompatible"
      <-> BackupManager.issues v <> [])
  /\ (BackupManager.v_status v = "compatible" ->
      BackupManager.issues v = [] /\ BackupManager.warnings v = []
      /\ BackupManager.changes (BackupManager.breaking_changes v) = [])
  /\ BackupManager.changes_count (BackupManager.breaking_changes v)
     = List.length (BackupManager.changes (BackupManager.breaking_changes v)).
Proof.
  intros H.
  destruct (validate_backup_inversion _ _ _ _ _ _ H)
    as [d [a [info [_ [_ [_ [_ [_ [_ [_ [_ [Hn [_ [Hf [Hs _]]]]]]]]]]]]]]].
  rewrite change_findings_partition in Hf.
  pose proof (proj1 (version_findings_cases
                       (BackupAnalyzer.homeassistant_version a)
                       (running_version info))) as Hw.
  rewrite Hw in Hf. cbn [app] in Hf.
  injection Hf as Hi Hwarn.
  unfold BackupManager.overall_status in Hs.
  split; [|split; [|split; [|exact Hn]]].
  - destruct (BackupManager.issues v); cbn in Hs.
    + destruct (String.eqb _ "high"); [injection Hs as -> ->; simpl; tauto|].
      destruct (negb _ || _); injection Hs as -> ->; simpl; tauto.
    + injection Hs as -> ->. simpl. tauto.
  - destruct (BackupManager.issues v) as [|i l]; cbn in Hs.
    + split; [|congruence].
      destruct (String.eqb _ "high"); [injection Hs as -> _; discriminate|].
      destruct (negb _ || _); injection Hs as -> _; discriminate.
    + injection Hs as -> _. split; [discriminate|reflexivity].
  - intros Hc.
    destruct (BackupManager.issues v) as [|i l] eqn:Ei; cbn in Hs;
      [|injection Hs as Hs _; congruence].
    destruct (String.eqb _ "high"); [injection Hs as Hs _; congruence|].
    destruct (BackupManager.warnings v) as [|w ws] eqn:Ew; cbn in Hs;
      [|injection Hs as Hs _; congruence].
    split; [reflexivity|]. split; [reflexivity|].
    apply (filter_both_nil is_high).
    + symmetry in Hi. apply app_eq_nil in Hi as [_ Hi].
      now apply map_eq_nil in Hi.
    + symmetry in Hwarn. now apply map_eq_nil in Hwarn.
Qed.

Lemma report_status_and_risk_witness :
  exists v, report_zigbee = BackupManager.Validated v
            /\ BackupManager.v_status v <> "incompatible"
            /\ BackupManager.issues v = [].
Proof.
  eexists. split; [reflexivity|].
  match goal with
  | |- BackupManager.v_status ?v <> _ /\ _ =>
      destruct (report_status_and_risk
                  (supervisor_of (Py.Return (archive_of manifest_zigbee))
                     "2024.10.1")
                  curated_store format_size timestamp "a1b2c3d4" v eq_refl)
        as [_ [H _]]
  end.
  split; [|reflexivity].
  intros E. apply (proj1 H E). reflexivity.
Defined.

(** X15: the warnings of a full report are the findings of the matched
    records whose severity is not "high", in order; its issues are the
    findings of those whose severity is "high", in order, preceded by one
    issue about the version exactly when the backup is newer than the
    running system.  So every issue has severity "high" and no warning
    has. *)
Theorem report_findings
    (api : BackupManager.SupervisorAPI) (db : BreakingChangesDB.Store)
    (format_size : Z -> string) (utcnow backup_id : string)
    (v : BackupManager.Validation) :
  BackupManager.validate_backup api db format_size utcnow backup_id
  = BackupManager.Validated v ->
  BackupManager.warnings v
  = map finding_of
      (filter (fun c => negb (is_high c))
         (BackupManager.changes (BackupManager.breaking_changes v)))
  /\ (BackupManager.vi_version_diff (BackupManager.version_info v)
      = Some "newer" ->
      exists message,
        BackupManager.issues v
        = BackupManager.VersionFinding "high" message
          :: map finding_of
               (filter is_high
                  (BackupManager.changes (BackupManager.breaking_changes v))))
  /\ (BackupManager.vi_version_diff (BackupManager.version_info v)
      <> Some "newer" ->
      BackupManager.issues v
      = map finding_of
          (filter is_high
             (BackupManager.changes (BackupManager.breaking_changes v))))
  /\ Forall (fun i => BackupManager.finding_severity i = "high")
       (BackupManager.issues v)
  /\ Forall (fun w => BackupManager.finding_severity w <> "high")
       (BackupManager.warnings v).
Proof.
  intros H.
  destruct (validate_backup_inversion _ _ _ _ _ _ H)
    as [d [a [info [_ [_ [_ [_ [_ [_ [Hd [_ [_ [_ [Hf _]]]]]]]]]]]]]].
  rewrite change_findings_partition in Hf.
  destruct (version_findings_cases
              (BackupAnalyzer.homeassistant_version a) (running_version info))
    as [Hw [Hnewer Hother]].
  rewrite Hw in Hf. cbn [app] in Hf. injection Hf as Hi Hwarn.
  rewrite <- Hd in Hnewer, Hother.
  assert (Hhigh : Forall (fun i => BackupManager.finding_severity i = "high")
                    (map finding_of
                       (filter is_high
                          (BackupManager.changes
                             (BackupManager.breaking_changes v))))).
  { apply Forall_forall. intros i Hin. apply in_map_iff in Hin as [c [<- Hc]].
    apply finding_of_severity. now apply filter_In in Hc. }
  split; [exact Hwarn|]. split; [|split; [|split]].
  - intros E. destruct (Hnewer E) as [msg Hm]. exists msg.
    now rewrite Hi, Hm.
  - intros E. now rewrite Hi, (Hother E).
  - rewrite Hi. apply Forall_app. split; [|exact Hhigh].
    destruct (BackupManager.vi_version_diff (BackupManager.version_info v))
      as [[|c s]|] eqn:E.
    + rewrite Hother by discriminate. constructor.
    + destruct (String.eqb (String c s) "newer") eqn:En.
      * apply String.eqb_eq in En. rewrite En in *.
        destruct (Hnewer eq_refl) as [msg ->]. now repeat constructor.
      * apply String.eqb_neq in En. rewrite Hother by congruence. constructor.
    + rewrite Hother by discriminate. constructor.
  - rewrite Hwarn. apply Forall_forall. intros w Hin.
    apply in_map_iff in Hin as [c [<- Hc]].
    rewrite finding_of_severity. apply filter_In in Hc as [_ Hc].
    now destruct (is_high c).
Qed.

Lemma report_findings_witness :
  exists v, Cases.report_zha = BackupManager.Validated v
            /\ BackupManager.issues v = [finding_of zha_2024_9]
            /\ BackupManager.warnings v = [finding_of mqtt_2024_10].
Proof.
  eexists. split; [reflexivity|].
  match goal with
  | |- BackupManager.issues ?v = _ /\ _ =>
      destruct (report_findings
                  (supervisor_of (Py.Return (archive_of Cases.manifest_zha))
                     "2024.10.1")
                  curated_store format_size timestamp "a1b2c3d4" v eq_refl)
        as [Hw [_ [Hi _]]]
  end.
  split.
  - rewrite Hi; [reflexivity|discriminate].
  - rewrite Hw. reflexivity.
Defined.

(** X16: a full report is "incompatible" exactly when the backup is newer
    than the running system or a matched record has severity "high"; its
    risk level is then "high" and its recommendation the one against
    restoring. *)
Theorem report_incompatible_iff
    (api : BackupManager.SupervisorAPI) (db : BreakingChangesDB.Store)
    (format_size : Z -> string) (utcnow backup_id : string)
    (v : BackupManager.Validation) :
  BackupManager.validate_backup api db format_size utcnow backup_id
  = BackupManager.Validated v ->
  (BackupManager.v_status v = "incompatible"
   <-> BackupManager.vi_version_diff (BackupManager.version_info v)
       = Some "newer"
       \/ exists c,
            In c (BackupManager.changes (BackupManager.breaking_changes v))
            /\ BreakingChangesDB.severity c = Some "high")
  /\ (BackupManager.v_status v = "incompatible" ->
      BackupManager.v_risk_level v = "high"
      /\ BackupManager.recommendation v
         = BackupManager._generate_recommendation "incompatible" "high" [] []).
Proof.
  intros H.
  destruct (validate_backup_inversion _ _ _ _ _ _ H)
    as [d [a [info [_ [_ [_ [_ [_ [_ [Hd [_ [_ [_ [Hf [Hs Hr]]]]]]]]]]]]]]].
  rewrite change_findings_partition in Hf.
  destruct (version_findings_cases
              (BackupAnalyzer.homeassistant_version a) (running_version info))
    as [Hw [Hnewer Hother]].
  rewrite Hw in Hf. cbn [app] in Hf. injection Hf as Hi Hwarn.
  rewrite <- Hd in Hnewer, Hother.
  assert (Hst : BackupManager.v_status v = "incompatible"
                <-> BackupManager.issues v <> []).
  { unfold BackupManager.overall_status in Hs.
    destruct (BackupManager.issues v) as [|i l]; cbn in Hs.
    - split; [|congruence].
      destruct (String.eqb _ "high"); [injection Hs as -> _; discriminate|].
      destruct (negb _ || _); injection Hs as -> _; discriminate.
    - injection Hs as -> _. split; [discriminate|reflexivity]. }
  split.
  - rewrite Hst. split.
    + intros Hne.
      destruct (String.eqb
                  (Py.get (BackupManager.vi_version_diff
                             (BackupManager.version_info v)) "")
                  "newer") eqn:En.
      * left. apply String.eqb_eq in En.
        destruct (BackupManager.vi_version_diff (BackupManager.version_info v));
          simpl in En; [now subst|discriminate].
      * right. rewrite Hi, Hother in Hne.
        -- destruct (filter is_high _) as [|c l] eqn:Efl; [now elim Hne|].
           exists c. assert (Hc : In c (c :: l)) by now left.
           rewrite <- Efl in Hc. apply filter_In in Hc as [Hc1 Hc2].
           split; [exact Hc1|]. unfold is_high in Hc2.
           apply String.eqb_eq in Hc2.
           destruct (BreakingChangesDB.severity c); simpl in Hc2;
             [now subst|discriminate].
        -- intros E. rewrite E in En. discriminate.
    + intros [E|[c [Hc1 Hc2]]].
      * destruct (Hnewer E) as [msg Hm]. rewrite Hi, Hm. discriminate.
      * rewrite Hi. intros E. apply app_eq_nil in E as [_ E].
        apply map_eq_nil in E.
        assert (Hc : In c (filter is_high
                             (BackupManager.changes
                                (BackupManager.breaking_changes v)))).
        { apply filter_In. split; [exact Hc1|].
          unfold is_high. now rewrite Hc2. }
        rewrite E in Hc. destruct Hc.
  - intros E. pose proof (proj1 Hst E) as Hne.
    unfold BackupManager.overall_status in Hs.
    destruct (BackupManager.issues v) as [|i l]; [now elim Hne|].
    cbn in Hs. injection Hs as Hs1 Hs2.
    split; [exact Hs2|]. rewrite Hr, Hs1, Hs2. reflexivity.
Qed.

Lemma report_incompatible_iff_witness :
  exists v, Cases.report_newer = BackupManager.Validated v
            /\ BackupManager.v_status v = "incompatible"
            /\ BackupManager.v_risk_level v = "high"
            /\ BackupManager.changes (BackupManager.breaking_changes v) = [].
Proof.
  eexists. split; [reflexivity|].
  match goal with
  | |- BackupManager.v_status ?v = _ /\ _ =>
      destruct (report_incompatible_iff
                  (supervisor_of (Py.Return (archive_of Cases.manifest_newer))
                     "2024.10.1")
                  curated_store format_size timestamp "a1b2c3d4" v eq_refl)
        as [Hiff Hrisk]
  end.
  assert (Hs := proj2 Hiff (or_introl eq_refl)).
  split; [exact Hs|]. split; [exact (proj1 (Hrisk Hs))|reflexivity].
Defined.

(** X17: when the version of the backup or of the running system does not
    parse (for one, a manifest without the [homeassistant] key), the full
    report says [compatible: false] in its version block and yet has no
    matched record, no issue, no warning, status "compatible" and risk
    level "low". *)
Theorem report_unparseable_version
    (api : BackupManager.SupervisorAPI) (db : BreakingChangesDB.Store)
    (format_size : Z -> string) (utcnow backup_id : string)
    (v : BackupManager.Validation) :
  BackupManager.validate_backup api db format_size utcnow backup_id
  = BackupManager.Validated v ->
  BackupAnalyzer._parse_version
    (BackupManager.vi_backup_version (BackupManager.version_info v)) = None
  \/ BackupAnalyzer._parse_version
       (BackupManager.vi_current_version (BackupManager.version_info v)) = None ->
  BackupManager.vi_compatible (BackupManager.version_info v) = false
  /\ BackupManager.vi_version_diff (BackupManager.version_info v) = None
  /\ BackupManager.changes (BackupManager.breaking_changes v) = []
  /\ BackupManager.issues v = []
  /\ BackupManager.warnings v = []
  /\ BackupManager.v_status v = "compatible"
  /\ BackupManager.v_risk_level v = "low".
Proof.
  intros H Hp.
  destruct (validate_backup_inversion _ _ _ _ _ _ H)
    as [d [a [info [_ [_ [_ [Hb [Hc [Hcomp [Hd [Hch [_ [_ [Hf [Hs _]]]]]]]]]]]]]]].
  rewrite Hb, Hc in Hp.
  destruct (compare_versions_parse_failure _ _ Hp) as [Hnone Hfalse].
  assert (Hempty : BackupManager.changes (BackupManager.breaking_changes v) = []).
  { rewrite Hch. apply find_breaking_changes_parse_failure.
    now rewrite !parse_version_same. }
  rewrite Hempty in Hf, Hs.
  destruct (version_findings_cases
              (BackupAnalyzer.homeassistant_version a) (running_version info))
    as [Hw [_ Hother]].
  rewrite change_findings_partition, Hw, Hother in Hf
    by (rewrite Hnone; discriminate).
  cbn in Hf. injection Hf as Hi Hwarn.
  rewrite Hi, Hwarn in Hs. cbn in Hs. injection Hs as Hs1 Hs2.
  rewrite Hcomp, Hd. repeat split; assumption.
Qed.

Lemma report_unparseable_version_witness :
  exists v, Cases.report_no_version = BackupManager.Validated v
            /\ BackupManager.vi_compatible (BackupManager.version_info v)
               = false
            /\ BackupManager.v_status v = "compatible"
            /\ BackupManager.v_risk_level v = "low".
Proof.
  eexists. split; [reflexivity|].
  match goal with
  | |- BackupManager.vi_compatible (BackupManager.version_info ?v) = _ /\ _ =>
      destruct (report_unparseable_version
                  (supervisor_of
                     (Py.Return (archive_of Cases.manifest_no_version))
                     "2024.10.1")
                  curated_store format_size timestamp "a1b2c3d4" v eq_refl
                  (or_introl eq_refl))
        as [H1 [_ [_ [_ [_ [H2 H3]]]]]]
  end.
  split; [exact H1|]. split; [exact H2|exact H3].
Defined.

(** ** Listing and restoring backups *)

Section SortByDate.

Import BackupOperations.

Variable A : Type.
Variable key : A -> string.

Lemma ltb_lt (x y : string) : String.ltb x y = true <-> String.compare x y = Lt.
Proof.
  unfold String.ltb. destruct (String.compare x y); split; congruence.
Qed.

Lemma ltb_asym (x y : string) : String.ltb x y = true -> String.ltb y x = false.
Proof.
  intros H. apply ltb_lt in H. apply not_true_is_false. intros H'.
  apply ltb_lt in H'. rewrite String.compare_antisym, H in H'. discriminate.
Qed.

Lemma not_ltb_trans (x y z : string) :
  String.ltb x y = false -> String.ltb y z = false -> String.ltb x z = false.
Proof.
  intros Hxy Hyz. apply not_true_is_false. intros Hxz.
  apply ltb_lt in Hxz.
  destruct (String.compare y z) eqn:E.
  - apply OrderedTypeEx.String_as_OT.cmp_eq in E. subst.
    apply ltb_lt in Hxz. congruence.
  - apply ltb_lt in E. congruence.
  - apply compare_gt_lt in E.
    pose proof (compare_lt_trans _ _ _ Hxz E) as H.
    apply ltb_lt in H. congruence.
Qed.

Lemma insert_desc_perm (x : A) (l : list A) :
  Permutation.Permutation (insert_desc key x l) (x :: l).
Proof.
  induction l as [|y l IH]; simpl; [apply Permutation.Permutation_refl|].
  destruct (String.ltb (key x) (key y)); [|apply Permutation.Permutation_refl].
  apply Permutation.perm_trans with (y :: x :: l).
  - now apply Permutation.perm_skip.
  - apply Permutation.perm_swap.
Qed.

Lemma sort_desc_perm (l : list A) :
  Permutation.Permutation (sort_desc key l) l.
Proof.
  induction l as [|x l IH]; simpl; [apply Permutation.Permutation_refl|].
  unfold sort_desc in *. simpl.
  apply Permutation.perm_trans with (x :: fold_right (insert_desc key) [] l).
  - apply insert_desc_perm.
  - now apply Permutation.perm_skip.
Qed.

Lemma insert_desc_sorted (x : A) (l : list A) :
  Sorted.StronglySorted (fun a b => String.ltb (key a) (key b) = false) l ->
  Sorted.StronglySorted (fun a b => String.ltb (key a) (key b) = false)
    (insert_desc key x l).
Proof.
  induction l as [|y l IH]; intros H; simpl.
  - repeat constructor.
  - inversion H as [|? ? Hl Hy]; subst.
    destruct (String.ltb (key x) (key y)) eqn:E.
    + constructor; [now apply IH|].
      apply Forall_forall. intros z Hz.
      apply (Permutation.Permutation_in _ (insert_desc_perm x l)) in Hz.
      destruct Hz as [<-|Hz]; [now apply ltb_asym|].
      rewrite Forall_forall in Hy. now apply Hy.
    + constructor; [exact H|]. constructor; [exact E|].
      eapply Forall_impl; [|exact Hy].
      intros z Hz. now apply not_ltb_trans with (key y).
Qed.

Lemma sort_desc_sorted (l : list A) :
  Sorted.StronglySorted (fun a b => String.ltb (key a) (key b) = false)
    (sort_desc key l).
Proof.
  induction l as [|x l IH]; [constructor|].
  unfold sort_desc in *. simpl. now apply insert_desc_sorted.
Qed.

Lemma ltb_irrefl (x : string) : String.ltb x x = false.
Proof.
  unfold String.ltb.
  pose proof (proj2 (OrderedTypeEx.String_as_OT.cmp_eq x x) eq_refl) as H.
  unfold OrderedTypeEx.String_as_OT.cmp in H. now rewrite H.
Qed.

(** Sorting keeps the order of the elements of one key. *)
Lemma insert_desc_stable (d : string) (x : A) (l : list A) :
  filter (fun a => String.eqb (key a) d) (insert_desc key x l)
  = filter (fun a => String.eqb (key a) d) (x :: l).
Proof.
  induction l as [|y l IH]; [reflexivity|]. simpl insert_desc.
  destruct (String.ltb (key x) (key y)) eqn:E; [|reflexivity].
  cbn [filter] in *. rewrite IH.
  destruct (String.eqb (key x) d) eqn:Ex; [|reflexivity].
  destruct (String.eqb (key y) d) eqn:Ey; [|reflexivity].
  apply String.eqb_eq in Ex, Ey. rewrite Ex, Ey, ltb_irrefl in E. discriminate.
Qed.

Lemma sort_desc_stable (d : string) (l : list A) :
  filter (fun a => String.eqb (key a) d) (sort_desc key l)
  = filter (fun a => String.eqb (key a) d) l.
Proof.
  induction l as [|x l IH]; [reflexivity|].
  unfold sort_desc in *. cbn [fold_right].
  rewrite insert_desc_stable. cbn [filter]. now rewrite IH.
Qed.

End SortByDate.

(** X19: [get_backups] raises what the supervisor raises; otherwise it
    returns the formatted backups, each once, newest date first, backups
    of one date in the order the supervisor gave them. *)
Theorem get_backups_newest_first
    (ops : BackupOperations.SupervisorOps) (format_size : Z -> string) :
  match BackupOperations.api_get_backups ops with
  | Py.Raise e => BackupOperations.get_backups ops format_size = Py.Raise e
  | Py.Return backups =>
      exists l,
        BackupOperations.get_backups ops format_size = Py.Return l
        /\ Permutation.Permutation l
             (map (BackupOperations.format_backup format_size) backups)
        /\ List.length l = List.length backups
        /\ newest_first l
        /\ forall d,
             dated d l
             = dated d (map (BackupOperations.format_backup format_size)
                          backups)
  end.
Proof.
  unfold BackupOperations.get_backups.
  destruct (BackupOperations.api_get_backups ops) as [backups|e];
    [|reflexivity].
  eexists. split; [reflexivity|].
  split; [apply sort_desc_perm|]. split; [|split].
  - rewrite (Permutation.Permutation_length (sort_desc_perm _ _ _)).
    apply length_map.
  - apply sort_desc_sorted.
  - intros d. apply sort_desc_stable.
Qed.

(** X20: [restore_backup] asks the supervisor to restore whatever the
    validation says: it raises exactly when the supervisor's restore
    raises, with that exception, and otherwise returns the report of
    [validate_backup] beside the message "Backup restore initiated", be
    the report an error or "incompatible". *)
Theorem restore_backup_regardless
    (ops : BackupOperations.SupervisorOps)
    (api : BackupManager.SupervisorAPI) (db : BreakingChangesDB.Store)
    (format_size : Z -> string) (backup_id : string)
    (password : option string) (validated_at utcnow : string) :
  match BackupOperations.api_restore_backup ops backup_id password with
  | Py.Raise e =>
      BackupOperations.restore_backup ops api db format_size
        backup_id password validated_at utcnow = Py.Raise e
  | Py.Return _ =>
      exists r,
        BackupOperations.restore_backup ops api db format_size
          backup_id password validated_at utcnow = Py.Return r
        /\ BackupOperations.validation r
           = BackupManager.validate_backup api db format_size
               validated_at backup_id
        /\ BackupOperations.r_message r = "Backup restore initiated"
        /\ BackupOperations.r_backup_id r = backup_id
  end
  /\ (first_failure api backup_id <> None ->
      BackupOperations.api_restore_backup ops backup_id password
      = Py.Return tt ->
      exists r,
        BackupOperations.restore_backup ops api db format_size
          backup_id password validated_at utcnow = Py.Return r
        /\ BackupManager.status (BackupOperations.validation r) = "error").
Proof.
  unfold BackupOperations.restore_backup. split.
  - destruct (BackupOperations.api_restore_backup ops backup_id password)
      as [u|e]; [|reflexivity].
    eexists. repeat split.
  - intros Hfail Hret. rewrite Hret. eexists. split; [reflexivity|].
    cbn [BackupOperations.validation].
    unfold first_failure in Hfail.
    unfold BackupManager.validate_backup, BackupManager.validate_backup_body.
    destruct (BackupManager.download_backup api backup_id) as [d|e];
      [|reflexivity].
    cbn [Py.bind].
    destruct (BackupAnalyzer.analyze_backup d) as [msg|a]; [reflexivity|].
    destruct (BackupManager.get_homeassistant_info api) as [info|e];
      [congruence|reflexivity].
Qed.

Lemma restore_backup_regardless_witness :
  exists r,
    BackupOperations.restore_backup
      (Cases.ops_of (Py.Return []) (Py.Return tt))
      (supervisor_of (Py.Raise (Py.Exception "404 Not Found")) "2024.10.1")
      curated_store format_size "a1b2c3d4" None timestamp timestamp
    = Py.Return r
    /\ BackupManager.status (BackupOperations.validation r) = "error".
Proof.
  apply (proj2 (restore_backup_regardless
                  (Cases.ops_of (Py.Return []) (Py.Return tt))
                  (supervisor_of (Py.Raise (Py.Exception "404 Not Found"))
                     "2024.10.1")
                  curated_store format_size "a1b2c3d4" None
                  timestamp timestamp)).
  - discriminate.
  - reflexivity.
Defined.

(** ** The second version check *)

Section CheckVersion.

Import BackupOperations.

(** The three parsers agree. *)
Lemma parse_version_tuple (s : string) :
  _parse_version s
  = option_map (fun v => (year v, month v, patch v))
      (BackupAnalyzer._parse_version s).
Proof.
  unfold _parse_version, BackupAnalyzer._parse_version.
  destruct (List.length (Py.split "." (Py.lstrip "v" s))) as [|[|n]];
    [reflexivity..|].
  cbn [Nat.leb Nat.ltb].
  destruct (Py.int (nth 0 (Py.split "." (Py.lstrip "v" s)) ""));
    [|reflexivity].
  destruct (Py.int (nth 1 (Py.split "." (Py.lstrip "v" s)) ""));
    [|reflexivity].
  destruct n as [|n]; [reflexivity|]. cbn [Nat.leb].
  now destruct (Py.int (nth 2 (Py.split "." (Py.lstrip "v" s)) "")).
Qed.

End CheckVersion.

(** X21: [_check_version_compatibility] parses like [compare_versions]
    does; its status is "unknown" exactly when a version does not parse,
    and for versions that parse "incompatible" exactly when the years
    differ, "warning" when the years agree and the months are more than
    two apart, "compatible" otherwise.  The patch numbers and the order
    of the two versions play no part. *)
Theorem check_version_compatibility_table
    (backup_version current_version : string) :
  BackupOperations.status
    (BackupOperations._check_version_compatibility
       backup_version current_version)
  = match BackupAnalyzer._parse_version backup_version,
          BackupAnalyzer._parse_version current_version with
    | Some b, Some c =>
        if negb (year b =? year c) then "incompatible"
        else if 2 <? Z.abs (month b - month c) then "warning"
        else "compatible"
    | _, _ => "unknown"
    end
  /\ BackupOperations.status
       (BackupOperations._check_version_compatibility
          current_version backup_version)
     = BackupOperations.status
         (BackupOperations._check_version_compatibility
            backup_version current_version).
Proof.
  unfold BackupOperations._check_version_compatibility.
  rewrite !parse_version_tuple.
  destruct (BackupAnalyzer._parse_version backup_version) as [[y1 m1 p1]|],
    (BackupAnalyzer._parse_version current_version) as [[y2 m2 p2]|];
    cbn [option_map year month patch]; try (split; reflexivity).
  rewrite !Z.gtb_ltb, (Z.eqb_sym y2 y1).
  replace (Z.abs (m2 - m1)) with (Z.abs (m1 - m2)) by lia.
  destruct (y1 =? y2); cbn [negb]; [|split; reflexivity].
  destruct (2 <? Z.abs (m1 - m2)); split; reflexivity.
Qed.

(** ** The configuration *)

Section Config.

Import ConfigManager.

Lemma validate_config_is_valid (c : Config) : valid_config (_validate_config c).
Proof.
  unfold valid_config, _validate_config.
  assert (Hs : exists s,
             (if is_valid_schedule (Py.get (backup_schedule c) (JStr "daily"))
              then Py.get (backup_schedule c) (JStr "daily")
              else JStr "daily") = JStr s
             /\ In s valid_schedules).
  { destruct (Py.get (backup_schedule c) (JStr "daily")) as [|b|z|s|l|l];
      cbn [is_valid_schedule];
      try (exists "daily"; split; [reflexivity|simpl; tauto]).
    destruct (Py.contains s valid_schedules) eqn:E.
    - exists s. split; [reflexivity|now apply contains_In].
    - exists "daily". split; [reflexivity|simpl; tauto]. }
  assert (Hr : exists r,
             match py_int (Py.get (backup_retention c) (JInt 7)) with
             | Some retention => JInt (Z.max 1 (Z.min 365 retention))
             | None => JInt 7
             end = JInt r /\ 1 <= r <= 365).
  { destruct (py_int (Py.get (backup_retention c) (JInt 7))) as [n|].
    - exists (Z.max 1 (Z.min 365 n)). split; [reflexivity|lia].
    - exists 7. split; [reflexivity|lia]. }
  destruct Hs as [s [Es Hs]], Hr as [r [Er Hr]].
  do 5 eexists. exists s, r. rewrite Es, Er. repeat split; assumption || lia.
Qed.

Lemma validate_config_fixes_valid (c : Config) :
  valid_config c -> _validate_config c = c.
Proof.
  intros [a [n [d [v [k [s [r [-> [Hs Hr]]]]]]]]].
  unfold _validate_config. cbn [auto_backup backup_schedule backup_retention
    notifications_enabled debug_mode validate_before_restore
    compression_enabled Py.get py_bool py_int is_valid_schedule].
  rewrite (proj2 (contains_In s valid_schedules) Hs).
  replace (Z.max 1 (Z.min 365 r)) with r by lia. reflexivity.
Qed.

Lemma get_config_of_valid (c : Config) :
  valid_config c -> get_config (Holds c) = c.
Proof. intros [a [n [d [v [k [s [r [-> _]]]]]]]]. reflexivity. Qed.

End Config.



(** X23: the configurations [_validate_config] leaves unchanged are
    exactly the valid ones, so validating twice is validating once. *)
Theorem validate_config_fixed_points (c : ConfigManager.Config) :
  (ConfigManager._validate_config c = c <-> valid_config c)
  /\ ConfigManager._validate_config (ConfigManager._validate_config c)
     = ConfigManager._validate_config c.
Proof.
  split.
  - split.
    + intros <-. apply validate_config_is_valid.
    + apply validate_config_fixes_valid.
  - apply validate_config_fixes_valid, validate_config_is_valid.
Qed.

Lemma validate_config_fixed_points_witness :
  ConfigManager._validate_config ConfigManager.DEFAULT_CONFIG
  = ConfigManager.DEFAULT_CONFIG.
Proof.
  apply (proj2 (proj1 (validate_config_fixed_points
                         ConfigManager.DEFAULT_CONFIG))).
  exists true, true, false, true, true, "daily", 7.
  split; [reflexivity|]. split; [simpl; tauto|lia].
Defined.

(** X24: [get_config] always has the seven keys: the defaults when there
    is no file or the file cannot be read, and otherwise, key by key, the
    value of the file where the file has the key and the default where it
    has not. *)
Theorem get_config_complete (file : ConfigManager.ConfigFile) (key : string) :
  In key config_keys ->
  ConfigManager.lookup (ConfigManager.get_config file) key <> None
  /\ ConfigManager.lookup (ConfigManager.get_config file) key
     = match file with
       | ConfigManager.Holds config =>
           ConfigManager.or_else
             (ConfigManager.lookup config key)
             (ConfigManager.lookup ConfigManager.DEFAULT_CONFIG key)
       | _ => ConfigManager.lookup ConfigManager.DEFAULT_CONFIG key
       end.
Proof.
  intros Hk. simpl in Hk.
  destruct Hk as [<-|[<-|[<-|[<-|[<-|[<-|[<-|[]]]]]]]];
    destruct file as [|msg|c]; (split; [|reflexivity]);
    try discriminate; cbn.
  - now destruct (ConfigManager.auto_backup c).
  - now destruct (ConfigManager.backup_schedule c).
  - now destruct (ConfigManager.backup_retention c).
  - now destruct (ConfigManager.notifications_enabled c).
  - now destruct (ConfigManager.debug_mode c).
  - now destruct (ConfigManager.validate_before_restore c).
  - now destruct (ConfigManager.compression_enabled c).
Qed.

Lemma get_config_complete_witness :
  ConfigManager.lookup
    (ConfigManager.get_config
       (ConfigManager.Holds
          (ConfigManager.single "debug_mode" (ConfigManager.JBool true))))
    "backup_schedule"
  = Some (ConfigManager.JStr "daily").
Proof.
  rewrite (proj2 (get_config_complete
                    (ConfigManager.Holds
                       (ConfigManager.single "debug_mode"
                          (ConfigManager.JBool true)))
                    "backup_schedule"
                    (or_intror (or_introl eq_refl)))).
  reflexivity.
Defined.

(** X25: what [save_config] writes is what [get_config] reads back: the
    validated configuration; after [update_config] it is the validated
    merge of the updates into the configuration read before; after
    [reset_to_defaults] it is the defaults. *)
Theorem save_then_get_config
    (config updates : ConfigManager.Config) (file : ConfigManager.ConfigFile) :
  ConfigManager.get_config (ConfigManager.save_config config)
  = ConfigManager._validate_config config
  /\ ConfigManager.get_config (ConfigManager.update_config updates file)
     = ConfigManager._validate_config
         (ConfigManager.update (ConfigManager.get_config file) updates)
  /\ ConfigManager.get_config ConfigManager.reset_to_defaults
     = ConfigManager.DEFAULT_CONFIG
  /\ valid_config (ConfigManager.get_config (ConfigManager.save_config config)).
Proof.
  assert (H : forall c, ConfigManager.get_config (ConfigManager.save_config c)
                        = ConfigManager._validate_config c).
  { intros c. apply get_config_of_valid, validate_config_is_valid. }
  split; [apply H|]. split; [apply H|]. split; [reflexivity|].
  rewrite H. apply validate_config_is_valid.
Qed.

(** X26: [set_value] cannot store a key outside the seven: the validation
    drops it, and [get_value] gives the caller's default for it
    afterwards; a retention set to an integer reads back clamped to 1
    to 365. *)
Theorem set_value_then_get_value
    (key : string) (value default : ConfigManager.json)
    (file : ConfigManager.ConfigFile) (n : Z) :
  (~ In key config_keys ->
   ConfigManager.get_value key default
     (ConfigManager.set_value key value file) = default)
  /\ ConfigManager.get_value "backup_retention" default
       (ConfigManager.set_value "backup_retention" (ConfigManager.JInt n) file)
     = ConfigManager.JInt (Z.max 1 (Z.min 365 n)).
Proof.
  split.
  - intros Hk. unfold ConfigManager.get_value, ConfigManager.set_value,
      ConfigManager.update_config, ConfigManager.save_config,
      ConfigManager._save_config.
    rewrite (get_config_of_valid _ (validate_config_is_valid _)).
    unfold ConfigManager.lookup.
    assert (Hne : forall k, In k config_keys -> String.eqb key k = false).
    { intros k Hin. apply String.eqb_neq. intros ->. now apply Hk. }
    rewrite !Hne by (simpl; tauto). reflexivity.
  - unfold ConfigManager.get_value, ConfigManager.set_value,
      ConfigManager.update_config, ConfigManager.save_config,
      ConfigManager._save_config.
    rewrite (get_config_of_valid _ (validate_config_is_valid _)).
    reflexivity.
Qed.

Lemma set_value_then_get_value_witness :
  ConfigManager.get_value "theme" (ConfigManager.JStr "light")
    (ConfigManager.set_value "theme" (ConfigManager.JStr "dark")
       ConfigManager.FileNotFound)
  = ConfigManager.JStr "light".
Proof.
  apply (proj1 (set_value_then_get_value "theme" (ConfigManager.JStr "dark")
                  (ConfigManager.JStr "light") ConfigManager.FileNotFound 0)).
  simpl. intuition discriminate.
Defined.

(** ** Extracting and analysing the manifest *)

(** X27: the first entry named like a manifest that has a file object
    decides: when it holds a manifest, [_extract_manifest] returns it
    whatever comes after it in the archive, entries of that name without
    a file object before it being passed over; and data that is no tar
    archive gives nothing. *)
Theorem extract_manifest_first_match
    (pre post : list BackupAnalyzer.TarInfo) (entry msg : string)
    (m : BackupAnalyzer.Manifest) :
  forallb passed_over pre = true ->
  BackupAnalyzer.is_manifest_name
    (BackupAnalyzer.mkTarInfo entry (Some (BackupAnalyzer.Json m))) = true ->
  BackupAnalyzer._extract_manifest
    (BackupAnalyzer.Tar
       (pre ++ BackupAnalyzer.mkTarInfo entry (Some (BackupAnalyzer.Json m))
            :: post)) = Some m
  /\ BackupAnalyzer._extract_manifest (BackupAnalyzer.TarError msg) = None.
Proof.
  intros Hpre Hname. split; [|reflexivity].
  unfold BackupAnalyzer._extract_manifest.
  rewrite scan_members_passed_over by exact Hpre.
  cbn [BackupAnalyzer.scan_members]. rewrite Hname. reflexivity.
Qed.

Lemma extract_manifest_first_match_witness :
  BackupAnalyzer._extract_manifest
    (BackupAnalyzer.Tar
       [ BackupAnalyzer.mkTarInfo "manifest.json" None;
         BackupAnalyzer.mkTarInfo "./manifest.json"
           (Some (BackupAnalyzer.Json manifest_zigbee));
         BackupAnalyzer.mkTarInfo "old/manifest.json"
           (Some (BackupAnalyzer.JSONDecodeError "Expecting value")) ])
  = Some manifest_zigbee.
Proof.
  apply (proj1 (extract_manifest_first_match
                  [BackupAnalyzer.mkTarInfo "manifest.json" None]
                  [BackupAnalyzer.mkTarInfo "old/manifest.json"
                     (Some (BackupAnalyzer.JSONDecodeError "Expecting value"))]
                  "./manifest.json" "" manifest_zigbee eq_refl eq_refl)).
Defined.



(** ** The time stamp of the store object *)

Section Instance.

Import BreakingChangesInstance.

Lemma updates_keep_attribute
    (fetches : list (list BreakingChangesDB.Change * string))
    (self : Instance) :
  self_last_update (updates fetches self) = self_last_update self.
Proof.
  revert self. induction fetches as [|f l IH]; intros self; [reflexivity|].
  unfold updates in *. cbn [fold_left]. rewrite IH.
  unfold update_database.
  now destruct (BreakingChangesDB.update_database (fst f) (snd f)
                  (self_changes self)).
Qed.

End Instance.

(** X29: [update_database] writes the time of the update into
    [self.changes] and never into the attribute [self.last_update]: after
    any number of updates the attribute is still the time stamp found in
    the file at start-up (none without a file), while the entry of
    [self.changes] is the time of the last update that fetched
    something. *)
Theorem last_update_attribute_is_stale
    (file : BreakingChangesDB.DbFile)
    (fetches : list (list BreakingChangesDB.Change * string))
    (fetched : list BreakingChangesDB.Change) (now : string) :
  BreakingChangesInstance.self_last_update
    (BreakingChangesInstance.updates (fetches ++ [(fetched, now)])
       (BreakingChangesInstance.init file))
  = BreakingChangesDB.last_update (BreakingChangesDB._load_database file)
  /\ (fetched <> [] ->
      BreakingChangesDB.last_update
        (BreakingChangesInstance.self_changes
           (BreakingChangesInstance.updates (fetches ++ [(fetched, now)])
              (BreakingChangesInstance.init file)))
      = Some now).
Proof.
  split; [apply updates_keep_attribute|].
  intros Hne. unfold BreakingChangesInstance.updates.
  rewrite fold_left_app. cbn [fold_left fst snd].
  unfold BreakingChangesInstance.update_database.
  destruct fetched as [|c l]; [congruence|]. reflexivity.
Qed.

Lemma last_update_attribute_is_stale_witness :
  BreakingChangesInstance.self_last_update
    (BreakingChangesInstance.updates
       [(BreakingChangesDB._fetch_breaking_changes, timestamp)]
       (BreakingChangesInstance.init BreakingChangesDB.Missing))
  = None
  /\ BreakingChangesDB.last_update
       (BreakingChangesInstance.self_changes
          (BreakingChangesInstance.updates
             [(BreakingChangesDB._fetch_breaking_changes, timestamp)]
             (BreakingChangesInstance.init BreakingChangesDB.Missing)))
     = Some timestamp.
Proof.
  destruct (last_update_attribute_is_stale BreakingChangesDB.Missing []
              BreakingChangesDB._fetch_breaking_changes timestamp)
    as [H1 H2].
  split; [exact H1|]. apply H2. discriminate.
Defined.
